(** * mirrorfs: the mirror operation dispatcher of [mirrorfs.c]

    [mirrorfs.c] registers one handler per FUSE request kind; every handler
    forwards to one libc call and turns its outcome into the signed result
    FUSE expects.  The handlers are embedded here as functions in a state
    monad over the process state that libc and the kernel act upon (the
    [world]): errno, the descriptor table, the directory streams, the
    mirrored tree and the memory the caller's buffers live in.

    Conventions of the embedding:
    - C [int], [ssize_t], [off_t], [size_t], [mode_t] values are [Z]; the
      conversions the source performs between widths ([(int)bytes_read],
      [fi->fh = open(...)], [close(fi->fh)]) are written out with [to_int]
      and [to_uint64];
    - a [const] pointer parameter (a path, an attribute name, the data of a
      write, the two timestamps) is the value it points to; any other pointer
      is an address ([ptr]) into the memory of the [world];
    - [void *buf] of [readdir] is opaque to the handler and only handed to the
      [filler] callback, so it is a value of an abstract type [B] that the
      callback transforms. *)

From Stdlib Require Import ZArith String List Lia Bool Ascii.
From stdpp Require Import base strings gmap.
Import ListNotations.
Local Open Scope Z_scope.

Set Implicit Arguments.

(** ** C integer types *)

Definition ptr := Z.
Definition NULL : ptr := 0.

Definition INT_MIN : Z := - 2147483648.
Definition INT_MAX : Z := 2147483647.

(** Conversion to [int] (32 bits, two's complement). *)
Definition to_int (z : Z) : Z := (z + 2147483648) mod 4294967296 - 2147483648.

(** Conversion to [uint64_t] and to [unsigned long]. *)
Definition to_uint64 (z : Z) : Z := z mod 18446744073709551616.

Definition is_int (z : Z) : Prop := INT_MIN <= z <= INT_MAX.

(** ** Structures of <fuse.h>, <dirent.h> and <time.h> used by the source *)

(** [struct fuse_file_info]: the session record.  The source touches only
    [flags] (read by [open]) and [fh] (the handle slot, a [uint64_t]). *)
Record fuse_file_info : Type := mk_fi { flags : Z; fh : Z }.

Definition set_fh (fi : fuse_file_info) (h : Z) : fuse_file_info :=
  {| flags := flags fi; fh := h |}.

Record dirent : Type := mk_dirent { d_name : string; d_off : Z }.

Record timespec : Type := mk_timespec { tv_sec : Z; tv_nsec : Z }.

(** [fuse_fill_dir_t]: [filler(buf, name, stbuf, off)] adds an entry to the
    directory buffer and returns non-zero when the buffer is full. *)
Definition fuse_fill_dir_t (B : Type) : Type := B -> string -> ptr -> Z -> Z * B.

(** ** The state monad of the process *)

Definition M (W A : Type) : Type := W -> A * W.

Definition ret {W A : Type} (a : A) : M W A := fun w => (a, w).

Definition bind {W A B : Type} (m : M W A) (k : A -> M W B) : M W B :=
  fun w => let (a, w') := m w in k a w'.

Declare Scope io_scope.
Delimit Scope io_scope with io.
Notation "x <- c ;; k" := (bind c (fun x => k))
  (at level 100, c at next level, right associativity) : io_scope.
Notation "c ;;; k" := (bind c (fun _ => k))
  (at level 100, right associativity) : io_scope.
Local Open Scope io_scope.

(** ** The libc interface the source is linked against

    One field per function the source calls.  A call returns what the C
    function returns ([-1], or [NULL], on failure) and may change the
    [world]; [errno] reads the calling thread's error number. *)
Class Libc (world : Type) : Type := {
  errno : world -> Z;
  printf : string -> M world Z;
  sys_access : string -> Z -> M world Z;
  sys_stat : string -> ptr -> M world Z;
  sys_fstat : Z -> ptr -> M world Z;
  sys_readlink : string -> ptr -> Z -> M world Z;
  sys_mknod : string -> Z -> Z -> M world Z;
  sys_mkdir : string -> Z -> M world Z;
  sys_unlink : string -> M world Z;
  sys_rmdir : string -> M world Z;
  sys_link : string -> string -> M world Z;
  sys_symlink : string -> string -> M world Z;
  sys_rename : string -> string -> M world Z;
  sys_chmod : string -> Z -> M world Z;
  sys_chown : string -> Z -> Z -> M world Z;
  sys_truncate : string -> Z -> M world Z;
  sys_ftruncate : Z -> Z -> M world Z;
  sys_opendir : string -> M world ptr;
  sys_closedir : ptr -> M world Z;
  sys_seekdir : ptr -> Z -> M world unit;
  sys_readdir : ptr -> M world (option dirent);
  (** [open(path, flags)] and [open(path, flags, mode)] *)
  sys_open : string -> Z -> option Z -> M world Z;
  sys_creat : string -> Z -> M world Z;
  sys_close : Z -> M world Z;
  sys_pread : Z -> ptr -> Z -> Z -> M world Z;
  sys_pwrite : Z -> string -> Z -> Z -> M world Z;
  sys_fallocate : Z -> Z -> Z -> Z -> M world Z;
  sys_fcntl : Z -> Z -> ptr -> M world Z;
  sys_flock : Z -> Z -> M world Z;
  sys_fdatasync : Z -> M world Z;
  sys_fsync : Z -> M world Z;
  sys_getxattr : string -> string -> ptr -> Z -> M world Z;
  sys_setxattr : string -> string -> string -> Z -> Z -> M world Z;
  sys_removexattr : string -> string -> M world Z;
  sys_listxattr : string -> ptr -> Z -> M world Z;
  sys_ioctl : Z -> Z -> ptr -> M world Z;
  sys_statvfs : string -> ptr -> M world Z;
  sys_utimensat : Z -> string -> timespec * timespec -> Z -> M world Z
}.

(** [-errno], read after the call that failed. *)
Definition neg_errno {world} `{Libc world} : M world Z :=
  fun w => (- errno w, w).

(** ** The handlers *)

Section Handlers.

Context {world : Type} `{K : Libc world}.

Definition mirror_access (path : string) (mode : Z) : M world Z :=
  r <- sys_access path mode ;;
  if r =? -1 then neg_errno else ret 0.

Definition mirror_getattr (path : string) (stbuf : ptr) : M world Z :=
  r <- sys_stat path stbuf ;;
  if r =? -1 then neg_errno else ret 0.

Definition mirror_fgetattr (path : string) (stbuf : ptr) (fi : fuse_file_info)
  : M world (Z * fuse_file_info) :=
  r <- sys_fstat (to_int (fh fi)) stbuf ;;
  if r =? -1 then e <- neg_errno ;; ret (e, fi) else ret (0, fi).

Definition mirror_readlink (path : string) (buf : ptr) (bufsize : Z) : M world Z :=
  r <- sys_readlink path buf bufsize ;;
  if r =? -1 then neg_errno else ret 0.

Definition mirror_mknod (path : string) (mode dev : Z) : M world Z :=
  r <- sys_mknod path mode dev ;;
  if r =? -1 then neg_errno else ret 0.

Definition mirror_mkdir (path : string) (mode : Z) : M world Z :=
  r <- sys_mkdir path mode ;;
  if r =? -1 then neg_errno else ret 0.

Definition mirror_unlink (path : string) : M world Z :=
  r <- sys_unlink path ;;
  if r =? -1 then neg_errno else ret 0.

Definition mirror_rmdir (path : string) : M world Z :=
  r <- sys_rmdir path ;;
  if r =? -1 then neg_errno else ret 0.

Definition mirror_link (oldpath newpath : string) : M world Z :=
  r <- sys_link oldpath newpath ;;
  if r =? -1 then neg_errno else ret 0.

Definition mirror_symlink (target linkpath : string) : M world Z :=
  printf ("Symlink '" ++ target ++ "' -> '" ++ linkpath ++ "'")%string ;;;
  r <- sys_symlink target linkpath ;;
  if r =? -1 then neg_errno else ret 0.

Definition mirror_rename (oldpath newpath : string) : M world Z :=
  r <- sys_rename oldpath newpath ;;
  if r =? -1 then neg_errno else ret 0.

Definition mirror_chmod (path : string) (mode : Z) : M world Z :=
  r <- sys_chmod path mode ;;
  if r =? -1 then neg_errno else ret 0.

Definition mirror_chown (path : string) (user group : Z) : M world Z :=
  r <- sys_chown path user group ;;
  if r =? -1 then neg_errno else ret 0.

Definition mirror_truncate (path : string) (length : Z) : M world Z :=
  r <- sys_truncate path length ;;
  if r =? -1 then neg_errno else ret 0.

Definition mirror_ftruncate (path : string) (length : Z) (fi : fuse_file_info)
  : M world (Z * fuse_file_info) :=
  r <- sys_ftruncate (to_int (fh fi)) length ;;
  if r =? -1 then e <- neg_errno ;; ret (e, fi) else ret (0, fi).

(** [fi->fh = (uint64_t)dir] happens only when [dir] is not [NULL]. *)
Definition mirror_opendir (path : string) (fi : fuse_file_info)
  : M world (Z * fuse_file_info) :=
  dir <- sys_opendir path ;;
  if dir =? NULL then e <- neg_errno ;; ret (e, fi)
  else ret (0, set_fh fi (to_uint64 dir)).

Definition mirror_releasedir (path : string) (fi : fuse_file_info)
  : M world (Z * fuse_file_info) :=
  r <- sys_closedir (fh fi) ;;
  if r =? -1 then e <- neg_errno ;; ret (e, fi) else ret (0, fi).

(** The [while ((entry = readdir(dir)))] loop of [mirror_readdir].  The
    libc stream may never report its end, so the loop is bounded by [fuel];
    [None] tells that the loop was still running when the fuel ran out,
    [Some buf] that it was left (end of stream, or [break]). *)
Fixpoint readdir_loop (B : Type) (fuel : nat) (dir : ptr) (filler : fuse_fill_dir_t B)
    (buf : B) : M world (option B) :=
  match fuel with
  | O => ret None
  | S fuel' =>
      entry <- sys_readdir dir ;;
      match entry with
      | None => ret (Some buf)
      | Some e =>
          let (full, buf') := filler buf (d_name e) NULL (d_off e) in
          if full =? 0 then readdir_loop fuel' dir filler buf'
          else ret (Some buf')
      end
  end.

Definition mirror_readdir (B : Type) (fuel : nat) (path : string) (buf : B)
    (filler : fuse_fill_dir_t B) (offset : Z) (fi : fuse_file_info)
  : M world (option (Z * B) * fuse_file_info) :=
  let dir := fh fi in
  sys_seekdir dir offset ;;;
  out <- readdir_loop fuel dir filler buf ;;
  match out with
  | Some buf' => ret (Some (0, buf'), fi)
  | None => ret (None, fi)
  end.

(** [if ((fi->fh = open(path, fi->flags)) != 0) return -errno;]: the value
    of the assignment is the [uint64_t] that was stored. *)
Definition mirror_open (path : string) (fi : fuse_file_info)
  : M world (Z * fuse_file_info) :=
  fd <- sys_open path (flags fi) None ;;
  let fi' := set_fh fi (to_uint64 fd) in
  if negb (fh fi' =? 0) then e <- neg_errno ;; ret (e, fi') else ret (0, fi').

(** [if ((fi->fh = creat(path, mode)) == -1) return -errno;]: [-1] is
    converted to [uint64_t] for the comparison. *)
Definition mirror_create (path : string) (mode : Z) (fi : fuse_file_info)
  : M world (Z * fuse_file_info) :=
  fd <- sys_creat path mode ;;
  let fi' := set_fh fi (to_uint64 fd) in
  if fh fi' =? to_uint64 (-1) then e <- neg_errno ;; ret (e, fi') else ret (0, fi').

Definition mirror_release (path : string) (fi : fuse_file_info)
  : M world (Z * fuse_file_info) :=
  sys_close (to_int (fh fi)) ;;;
  ret (0, fi).

Definition mirror_read (path : string) (buf : ptr) (size offset : Z)
    (fi : fuse_file_info) : M world (Z * fuse_file_info) :=
  bytes_read <- sys_pread (to_int (fh fi)) buf size offset ;;
  if bytes_read =? -1 then ret (0, fi) else ret (to_int bytes_read, fi).

Definition mirror_write (path : string) (buf : string) (size offset : Z)
    (fi : fuse_file_info) : M world (Z * fuse_file_info) :=
  written <- sys_pwrite (to_int (fh fi)) buf size offset ;;
  if written =? -1 then e <- neg_errno ;; ret (e, fi)
  else ret (to_int written, fi).

Definition mirror_fallocate (path : string) (mode offset len : Z)
    (fi : fuse_file_info) : M world (Z * fuse_file_info) :=
  r <- sys_fallocate (to_int (fh fi)) mode offset len ;;
  if r =? -1 then e <- neg_errno ;; ret (e, fi) else ret (0, fi).

Definition mirror_lock (path : string) (fi : fuse_file_info) (cmd : Z) (lock : ptr)
  : M world (Z * fuse_file_info) :=
  r <- sys_fcntl (to_int (fh fi)) cmd lock ;;
  if r =? -1 then e <- neg_errno ;; ret (e, fi) else ret (0, fi).

Definition mirror_flock (path : string) (fi : fuse_file_info) (op : Z)
  : M world (Z * fuse_file_info) :=
  r <- sys_flock (to_int (fh fi)) op ;;
  if r =? -1 then e <- neg_errno ;; ret (e, fi) else ret (0, fi).

Definition mirror_fsync (path : string) (datasync : Z) (fi : fuse_file_info)
  : M world (Z * fuse_file_info) :=
  res <- (if negb (datasync =? 0) then sys_fdatasync (to_int (fh fi))
          else sys_fsync (to_int (fh fi))) ;;
  if res =? -1 then e <- neg_errno ;; ret (e, fi) else ret (0, fi).

Definition mirror_getxattr (path name : string) (value : ptr) (size : Z) : M world Z :=
  valsize <- sys_getxattr path name value size ;;
  if valsize =? -1 then neg_errno else ret (to_int valsize).

Definition mirror_setxattr (path name value : string) (size flags : Z) : M world Z :=
  r <- sys_setxattr path name value size flags ;;
  if r =? -1 then neg_errno else ret 0.

Definition mirror_removexattr (path name : string) : M world Z :=
  r <- sys_removexattr path name ;;
  if r =? -1 then neg_errno else ret 0.

Definition mirror_listxattr (path : string) (list : ptr) (size : Z) : M world Z :=
  listsize <- sys_listxattr path list size ;;
  if listsize =? -1 then neg_errno else ret (to_int listsize).

(** [flags] and [data] are not used; [request], an [int], is converted to the
    [unsigned long] that [ioctl] takes. *)
Definition mirror_ioctl (path : string) (request : Z) (arg : ptr)
    (fi : fuse_file_info) (flags : Z) (data : ptr) : M world (Z * fuse_file_info) :=
  r <- sys_ioctl (to_int (fh fi)) (to_uint64 request) arg ;;
  if r =? -1 then e <- neg_errno ;; ret (e, fi) else ret (0, fi).

Definition mirror_statfs (path : string) (buf : ptr) : M world Z :=
  r <- sys_statvfs path buf ;;
  if r =? -1 then neg_errno else ret 0.

Definition mirror_utimens (path : string) (tv : timespec * timespec) : M world Z :=
  r <- sys_utimensat (-1) path tv 0 ;;
  if r =? -1 then neg_errno else ret 0.

End Handlers.

(** ** The operation table

    [struct fuse_operations] restricted to the members [mirror_oper] sets.
    Handlers that take no [struct fuse_file_info *] have no access to the
    session record. *)
Record fuse_operations (world : Type) : Type := {
  flag_nopath : Z;
  access : string -> Z -> M world Z;
  getattr : string -> ptr -> M world Z;
  fgetattr : string -> ptr -> fuse_file_info -> M world (Z * fuse_file_info);
  readlink : string -> ptr -> Z -> M world Z;
  mknod : string -> Z -> Z -> M world Z;
  mkdir : string -> Z -> M world Z;
  unlink : string -> M world Z;
  rmdir : string -> M world Z;
  link : string -> string -> M world Z;
  symlink : string -> string -> M world Z;
  rename : string -> string -> M world Z;
  chmod : string -> Z -> M world Z;
  chown : string -> Z -> Z -> M world Z;
  truncate : string -> Z -> M world Z;
  ftruncate : string -> Z -> fuse_file_info -> M world (Z * fuse_file_info);
  opendir : string -> fuse_file_info -> M world (Z * fuse_file_info);
  releasedir : string -> fuse_file_info -> M world (Z * fuse_file_info);
  readdir : forall B : Type, nat -> string -> B -> fuse_fill_dir_t B -> Z ->
            fuse_file_info -> M world (option (Z * B) * fuse_file_info);
  open : string -> fuse_file_info -> M world (Z * fuse_file_info);
  create : string -> Z -> fuse_file_info -> M world (Z * fuse_file_info);
  release : string -> fuse_file_info -> M world (Z * fuse_file_info);
  read : string -> ptr -> Z -> Z -> fuse_file_info -> M world (Z * fuse_file_info);
  write : string -> string -> Z -> Z -> fuse_file_info -> M world (Z * fuse_file_info);
  fallocate : string -> Z -> Z -> Z -> fuse_file_info -> M world (Z * fuse_file_info);
  lock : string -> fuse_file_info -> Z -> ptr -> M world (Z * fuse_file_info);
  flock : string -> fuse_file_info -> Z -> M world (Z * fuse_file_info);
  fsync : string -> Z -> fuse_file_info -> M world (Z * fuse_file_info);
  getxattr : string -> string -> ptr -> Z -> M world Z;
  setxattr : string -> string -> string -> Z -> Z -> M world Z;
  removexattr : string -> string -> M world Z;
  listxattr : string -> ptr -> Z -> M world Z;
  ioctl : string -> Z -> ptr -> fuse_file_info -> Z -> ptr -> M world (Z * fuse_file_info);
  statfs : string -> ptr -> M world Z;
  utimens : string -> timespec * timespec -> M world Z
}.

Definition mirror_oper {world : Type} `{K : Libc world} : fuse_operations world := {|
  flag_nopath := 1;
  access      := mirror_access;
  getattr     := mirror_getattr;
  fgetattr    := mirror_fgetattr;
  readlink    := mirror_readlink;
  mknod       := mirror_mknod;
  mkdir       := mirror_mkdir;
  unlink      := mirror_unlink;
  rmdir       := mirror_rmdir;
  link        := mirror_link;
  symlink     := mirror_symlink;
  rename      := mirror_rename;
  chmod       := mirror_chmod;
  chown       := mirror_chown;
  truncate    := mirror_truncate;
  ftruncate   := mirror_ftruncate;
  opendir     := mirror_opendir;
  releasedir  := mirror_releasedir;
  readdir     := @mirror_readdir world K;
  open        := mirror_open;
  create      := mirror_create;
  release     := mirror_release;
  read        := mirror_read;
  write       := mirror_write;
  fallocate   := mirror_fallocate;
  lock        := mirror_lock;
  flock       := mirror_flock;
  fsync       := mirror_fsync;
  getxattr    := mirror_getxattr;
  setxattr    := mirror_setxattr;
  removexattr := mirror_removexattr;
  listxattr   := mirror_listxattr;
  ioctl       := mirror_ioctl;
  statfs      := mirror_statfs;
  utimens     := mirror_utimens
|}.

(** ** Requests

    What [fuse_main] does with the table: a request names a member and brings
    its arguments; the session record [fi] of the request is handed to the
    members that take one and is otherwise out of the handler's reach. *)
Inductive request (B : Type) : Type :=
| Access (path : string) (mode : Z)
| Getattr (path : string) (stbuf : ptr)
| Fgetattr (path : string) (stbuf : ptr)
| Readlink (path : string) (buf : ptr) (bufsize : Z)
| Mknod (path : string) (mode dev : Z)
| Mkdir (path : string) (mode : Z)
| Unlink (path : string)
| Rmdir (path : string)
| Link (oldpath newpath : string)
| Symlink (target linkpath : string)
| Rename (oldpath newpath : string)
| Chmod (path : string) (mode : Z)
| Chown (path : string) (user group : Z)
| Truncate (path : string) (length : Z)
| Ftruncate (path : string) (length : Z)
| Opendir (path : string)
| Releasedir (path : string)
| Readdir (path : string) (buf : B) (filler : fuse_fill_dir_t B) (offset : Z)
| Open (path : string)
| Create (path : string) (mode : Z)
| Release (path : string)
| Read (path : string) (buf : ptr) (size offset : Z)
| Write (path : string) (buf : string) (size offset : Z)
| Fallocate (path : string) (mode offset len : Z)
| Lock (path : string) (cmd : Z) (lck : ptr)
| Flock (path : string) (op : Z)
| Fsync (path : string) (datasync : Z)
| Getxattr (path name : string) (value : ptr) (size : Z)
| Setxattr (path name value : string) (size flags : Z)
| Removexattr (path name : string)
| Listxattr (path : string) (lst : ptr) (size : Z)
| Ioctl (path : string) (req : Z) (arg : ptr) (flags : Z) (data : ptr)
| Statfs (path : string) (buf : ptr)
| Utimens (path : string) (tv : timespec * timespec).

#[global] Arguments Access {B}.
#[global] Arguments Getattr {B}.
#[global] Arguments Fgetattr {B}.
#[global] Arguments Readlink {B}.
#[global] Arguments Mknod {B}.
#[global] Arguments Mkdir {B}.
#[global] Arguments Unlink {B}.
#[global] Arguments Rmdir {B}.
#[global] Arguments Link {B}.
#[global] Arguments Symlink {B}.
#[global] Arguments Rename {B}.
#[global] Arguments Chmod {B}.
#[global] Arguments Chown {B}.
#[global] Arguments Truncate {B}.
#[global] Arguments Ftruncate {B}.
#[global] Arguments Opendir {B}.
#[global] Arguments Releasedir {B}.
#[global] Arguments Readdir {B}.
#[global] Arguments Open {B}.
#[global] Arguments Create {B}.
#[global] Arguments Release {B}.
#[global] Arguments Read {B}.
#[global] Arguments Write {B}.
#[global] Arguments Fallocate {B}.
#[global] Arguments Lock {B}.
#[global] Arguments Flock {B}.
#[global] Arguments Fsync {B}.
#[global] Arguments Getxattr {B}.
#[global] Arguments Setxattr {B}.
#[global] Arguments Removexattr {B}.
#[global] Arguments Listxattr {B}.
#[global] Arguments Ioctl {B}.
#[global] Arguments Statfs {B}.
#[global] Arguments Utimens {B}.

(** The outcome of a request: the handler's result ([None] only for a
    directory walk that ran out of fuel), the session record as the handler
    left it, and the directory buffer of a [Readdir]. *)
Record reply (B : Type) : Type := mk_reply {
  status : option Z;
  session : fuse_file_info;
  dirbuf : option B
}.

Section Dispatch.

Context {world B : Type}.
Variable ops : fuse_operations world.

Definition by_path (fi : fuse_file_info) (h : M world Z) : M world (reply B) :=
  r <- h ;; ret (mk_reply (Some r) fi None).

Definition by_handle (h : M world (Z * fuse_file_info)) : M world (reply B) :=
  out <- h ;; ret (mk_reply (Some (fst out)) (snd out) None).

Definition dispatch (fuel : nat) (rq : request B) (fi : fuse_file_info)
  : M world (reply B) :=
  match rq with
  | Access path mode => by_path fi (access ops path mode)
  | Getattr path stbuf => by_path fi (getattr ops path stbuf)
  | Fgetattr path stbuf => by_handle (fgetattr ops path stbuf fi)
  | Readlink path buf bufsize => by_path fi (readlink ops path buf bufsize)
  | Mknod path mode dev => by_path fi (mknod ops path mode dev)
  | Mkdir path mode => by_path fi (mkdir ops path mode)
  | Unlink path => by_path fi (unlink ops path)
  | Rmdir path => by_path fi (rmdir ops path)
  | Link oldpath newpath => by_path fi (link ops oldpath newpath)
  | Symlink target linkpath => by_path fi (symlink ops target linkpath)
  | Rename oldpath newpath => by_path fi (rename ops oldpath newpath)
  | Chmod path mode => by_path fi (chmod ops path mode)
  | Chown path user group => by_path fi (chown ops path user group)
  | Truncate path length => by_path fi (truncate ops path length)
  | Ftruncate path length => by_handle (ftruncate ops path length fi)
  | Opendir path => by_handle (opendir ops path fi)
  | Releasedir path => by_handle (releasedir ops path fi)
  | Readdir path buf filler offset =>
      out <- readdir ops fuel path buf filler offset fi ;;
      ret (mk_reply (option_map fst (fst out)) (snd out) (option_map snd (fst out)))
  | Open path => by_handle (open ops path fi)
  | Create path mode => by_handle (create ops path mode fi)
  | Release path => by_handle (release ops path fi)
  | Read path buf size offset => by_handle (read ops path buf size offset fi)
  | Write path buf size offset => by_handle (write ops path buf size offset fi)
  | Fallocate path mode offset len => by_handle (fallocate ops path mode offset len fi)
  | Lock path cmd lck => by_handle (lock ops path fi cmd lck)
  | Flock path op => by_handle (flock ops path fi op)
  | Fsync path datasync => by_handle (fsync ops path datasync fi)
  | Getxattr path name value size => by_path fi (getxattr ops path name value size)
  | Setxattr path name value size flags =>
      by_path fi (setxattr ops path name value size flags)
  | Removexattr path name => by_path fi (removexattr ops path name)
  | Listxattr path lst size => by_path fi (listxattr ops path lst size)
  | Ioctl path req arg flags data => by_handle (ioctl ops path req arg fi flags data)
  | Statfs path buf => by_path fi (statfs ops path buf)
  | Utimens path tv => by_path fi (utimens ops path tv)
  end.

End Dispatch.

(** The requests that start a session: the only ones whose handler assigns
    [fi->fh]. *)
Definition opens_session {B : Type} (rq : request B) : bool :=
  match rq with
  | Open _ | Create _ _ | Opendir _ => true
  | _ => false
  end.

(** ** Constants of <fcntl.h>, <sys/stat.h> and <errno.h> (Linux) *)

Definition O_RDONLY : Z := 0.
Definition O_WRONLY : Z := 1.
Definition O_RDWR : Z := 2.
Definition O_ACCMODE : Z := 3.
Definition O_CREAT : Z := 64.
Definition O_EXCL : Z := 128.
Definition O_TRUNC : Z := 512.
Definition AT_FDCWD : Z := -100.
Definition UTIME_NOW : Z := 1073741823.
Definition UTIME_OMIT : Z := 1073741822.

(** The descriptors of a process are below its limit on open files. *)
Definition OPEN_MAX : Z := 1024.

(** The most a single read or write transfers on Linux (read(2)). *)
Definition MAX_RW_COUNT : Z := 2147479552.

Definition ENOENT : Z := 2.
Definition EBADF : Z := 9.
Definition EFAULT : Z := 14.
Definition EEXIST : Z := 17.
Definition ENOTDIR : Z := 20.
Definition EISDIR : Z := 21.
Definition EINVAL : Z := 22.
Definition EMFILE : Z := 24.
Definition ERANGE : Z := 34.
Definition ENOSYS : Z := 38.
Definition ENOTEMPTY : Z := 39.
Definition ELOOP : Z := 40.
Definition ENODATA : Z := 61.

Definition XATTR_CREATE : Z := 1.
Definition XATTR_REPLACE : Z := 2.

Definition has_flag (flags f : Z) : bool := negb (Z.land flags f =? 0).

Definition is_absolute (path : string) : bool :=
  match path with
  | String "/"%char _ => true
  | _ => false
  end.

Definition ordinary_nsec (t : timespec) : Prop := 0 <= tv_nsec t < 1000000000.

(** ** A reference kernel

    A small in-memory implementation of [Libc], after the Linux manual pages,
    on which the handlers can be run: a tree of regular files, symbolic links
    and directories keyed by absolute path, a descriptor table, directory
    streams, extended attributes, the caller's buffers and the standard
    output.  It has no owners, permission bits, locks or devices (those
    calls answer [ENOSYS]) and does not traverse symbolic links. *)

Inductive node : Type :=
| File (content : string)
| Slink (target : string)
| Dir.

Record memfs : Type := mk_memfs {
  m_errno : Z;
  m_nodes : gmap string node;
  m_times : gmap string (timespec * timespec);
  m_now : timespec;
  m_fds : gmap Z (string * Z);
  m_dirs : gmap Z (list dirent * nat);
  m_mem : gmap Z string;
  m_stdout : string;
  m_xattrs : gmap (string * string) string
}.

Definition set_errno (e : Z) (w : memfs) : memfs :=
  mk_memfs e (m_nodes w) (m_times w) (m_now w) (m_fds w) (m_dirs w) (m_mem w) (m_stdout w)
    (m_xattrs w).
Definition set_nodes (n : gmap string node) (w : memfs) : memfs :=
  mk_memfs (m_errno w) n (m_times w) (m_now w) (m_fds w) (m_dirs w) (m_mem w) (m_stdout w)
    (m_xattrs w).
Definition set_times (t : gmap string (timespec * timespec)) (w : memfs) : memfs :=
  mk_memfs (m_errno w) (m_nodes w) t (m_now w) (m_fds w) (m_dirs w) (m_mem w) (m_stdout w)
    (m_xattrs w).
Definition set_fds (f : gmap Z (string * Z)) (w : memfs) : memfs :=
  mk_memfs (m_errno w) (m_nodes w) (m_times w) (m_now w) f (m_dirs w) (m_mem w) (m_stdout w)
    (m_xattrs w).
Definition set_dirs (d : gmap Z (list dirent * nat)) (w : memfs) : memfs :=
  mk_memfs (m_errno w) (m_nodes w) (m_times w) (m_now w) (m_fds w) d (m_mem w) (m_stdout w)
    (m_xattrs w).
Definition set_mem (m : gmap Z string) (w : memfs) : memfs :=
  mk_memfs (m_errno w) (m_nodes w) (m_times w) (m_now w) (m_fds w) (m_dirs w) m (m_stdout w)
    (m_xattrs w).
Definition set_stdout (s : string) (w : memfs) : memfs :=
  mk_memfs (m_errno w) (m_nodes w) (m_times w) (m_now w) (m_fds w) (m_dirs w) (m_mem w) s
    (m_xattrs w).
Definition set_xattrs (x : gmap (string * string) string) (w : memfs) : memfs :=
  mk_memfs (m_errno w) (m_nodes w) (m_times w) (m_now w) (m_fds w) (m_dirs w) (m_mem w)
    (m_stdout w) x.

(** A failing call: [-1], and errno set. *)
Definition fail (e : Z) : M memfs Z := fun w => (-1, set_errno e w).

(** The lowest key from [base] on that [m] does not hold. *)
Definition lowest_free {V : Type} (base : Z) (m : gmap Z V) : Z :=
  default base
    (head (filter (fun n => negb (bool_decide (is_Some (m !! n))))
             (List.map (fun i => base + Z.of_nat i) (seq 0 (S (size m)))))).

(** [path] cut at its last slash. *)
Fixpoint split_last (s : string) : option (string * string) :=
  match s with
  | EmptyString => None
  | String c s' =>
      match split_last s' with
      | Some (d, b) => Some (String c d, b)
      | None => if Ascii.eqb c "/" then Some (EmptyString, s') else None
      end
  end.

Definition parent (q : string) : string :=
  match split_last q with
  | Some (EmptyString, _) => "/"
  | Some (d, _) => d
  | None => EmptyString
  end.

Definition basename (q : string) : string :=
  match split_last q with
  | Some (_, b) => b
  | None => q
  end.

Definition children (nodes : gmap string node) (p : string) : list string :=
  omap (fun q => if bool_decide (q <> "/"%string /\ parent q = p)
                 then Some (basename q) else None)
       (List.map fst (map_to_list nodes)).

(** The entries of a fresh stream, with the offsets a Linux tmpfs gives:
    [d_off] of an entry is the cookie of the entry after it, the children
    are numbered downwards from the first one listed, and the last entry
    carries the cookie of the end of the stream. *)
Definition END_COOKIE : Z := 2147483647.

Definition dirents (names : list string) : list dirent :=
  let k := List.length names in
  let cookie (i : nat) := if (i <? k)%nat then Z.of_nat (k + 2 - i) else END_COOKIE in
  mk_dirent "." 1 :: mk_dirent ".." (cookie O)
    :: imap (fun i n => mk_dirent n (cookie (S i))) names.

(** [data] laid over the start of the buffer content [old]. *)
Definition blit (data old : string) : string :=
  (data ++ substring (String.length data) (String.length old - String.length data) old)%string.

(** [data] laid over [content] at [offset], the gap filled with zero bytes. *)
Definition splice (offset : nat) (data content : string) : string :=
  let n := String.length content in
  (substring 0 offset content
   ++ string_of_list_ascii (repeat zero (offset - n))
   ++ data
   ++ substring (offset + String.length data) (n - (offset + String.length data)) content)%string.

Definition memfs_exists (path : string) : M memfs Z :=
  fun w => match m_nodes w !! path with
           | Some _ => (0, w)
           | None => fail ENOENT w
           end.

Definition memfs_open (path : string) (flags : Z) (mode : option Z) : M memfs Z :=
  fun w =>
    let acc := Z.land flags O_ACCMODE in
    let fd := lowest_free 0 (m_fds w) in
    let opened w1 :=
      if fd <? OPEN_MAX then (fd, set_fds (<[fd := (path, acc)]> (m_fds w1)) w1)
      else fail EMFILE w in
    match m_nodes w !! path with
    | Some (File c) =>
        if has_flag flags O_CREAT && has_flag flags O_EXCL then fail EEXIST w
        else if has_flag flags O_TRUNC && negb (acc =? O_RDONLY)
             then opened (set_nodes (<[path := File EmptyString]> (m_nodes w)) w)
             else opened w
    | Some Dir =>
        if has_flag flags O_CREAT && has_flag flags O_EXCL then fail EEXIST w
        else if acc =? O_RDONLY then opened w else fail EISDIR w
    | Some (Slink _) => fail ELOOP w
    | None =>
        if has_flag flags O_CREAT
        then match m_nodes w !! parent path with
             | Some Dir => opened (set_nodes (<[path := File EmptyString]> (m_nodes w)) w)
             | Some _ => fail ENOTDIR w
             | None => fail ENOENT w
             end
        else fail ENOENT w
    end.

(** creat(2): "equivalent to calling open() with flags equal to
    O_CREAT|O_WRONLY|O_TRUNC". *)
Definition memfs_creat (path : string) (mode : Z) : M memfs Z :=
  memfs_open path (Z.lor O_CREAT (Z.lor O_WRONLY O_TRUNC)) (Some mode).

Definition memfs_close (fd : Z) : M memfs Z :=
  fun w => match m_fds w !! fd with
           | Some _ => (0, set_fds (delete fd (m_fds w)) w)
           | None => fail EBADF w
           end.

Definition memfs_pread (fd : Z) (buf : ptr) (size offset : Z) : M memfs Z :=
  fun w =>
    match m_fds w !! fd with
    | Some (path, acc) =>
        if acc =? O_WRONLY then fail EBADF w
        else if offset <? 0 then fail EINVAL w
        else match m_nodes w !! path, m_mem w !! buf with
             | Some (File c), Some old =>
                 let data := substring (Z.to_nat offset)
                               (Z.to_nat (Z.min size MAX_RW_COUNT)) c in
                 (Z.of_nat (String.length data),
                  set_mem (<[buf := blit data old]> (m_mem w)) w)
             | Some (File c), None => fail EFAULT w
             | Some Dir, _ => fail EISDIR w
             | _, _ => fail EBADF w
             end
    | None => fail EBADF w
    end.

Definition memfs_pwrite (fd : Z) (buf : string) (size offset : Z) : M memfs Z :=
  fun w =>
    match m_fds w !! fd with
    | Some (path, acc) =>
        if acc =? O_RDONLY then fail EBADF w
        else if offset <? 0 then fail EINVAL w
        else match m_nodes w !! path with
             | Some (File c) =>
                 let data := substring 0 (Z.to_nat (Z.min size MAX_RW_COUNT)) buf in
                 (Z.of_nat (String.length data),
                  set_nodes (<[path := File (splice (Z.to_nat offset) data c)]> (m_nodes w)) w)
             | _ => fail EBADF w
             end
    | None => fail EBADF w
    end.

(** readlink(2): "does not append a terminating null byte to buf.  It will
    (silently) truncate the contents (to a length of bufsiz characters), in
    case the buffer is too small to hold all of the contents." *)
Definition memfs_readlink (path : string) (buf : ptr) (bufsize : Z) : M memfs Z :=
  fun w =>
    match m_nodes w !! path with
    | Some (Slink t) =>
        if bufsize <=? 0 then fail EINVAL w
        else match m_mem w !! buf with
             | Some old =>
                 let data := substring 0 (Z.to_nat bufsize) t in
                 (Z.of_nat (String.length data),
                  set_mem (<[buf := blit data old]> (m_mem w)) w)
             | None => fail EFAULT w
             end
    | Some _ => fail EINVAL w
    | None => fail ENOENT w
    end.

Definition memfs_symlink (target linkpath : string) : M memfs Z :=
  fun w =>
    match m_nodes w !! linkpath, m_nodes w !! parent linkpath with
    | Some _, _ => fail EEXIST w
    | None, Some Dir => (0, set_nodes (<[linkpath := Slink target]> (m_nodes w)) w)
    | None, Some _ => fail ENOTDIR w
    | None, None => fail ENOENT w
    end.

Definition memfs_mkdir (path : string) (mode : Z) : M memfs Z :=
  fun w =>
    match m_nodes w !! path, m_nodes w !! parent path with
    | Some _, _ => fail EEXIST w
    | None, Some Dir => (0, set_nodes (<[path := Dir]> (m_nodes w)) w)
    | None, Some _ => fail ENOTDIR w
    | None, None => fail ENOENT w
    end.

(** The attributes of a node go with it. *)
Definition forget_xattrs (path : string) (w : memfs) : memfs :=
  set_xattrs (filter (fun kv => fst (fst kv) <> path) (m_xattrs w)) w.

Definition memfs_unlink (path : string) : M memfs Z :=
  fun w =>
    match m_nodes w !! path with
    | Some Dir => fail EISDIR w
    | Some _ => (0, forget_xattrs path (set_nodes (delete path (m_nodes w)) w))
    | None => fail ENOENT w
    end.

Definition memfs_rmdir (path : string) : M memfs Z :=
  fun w =>
    match m_nodes w !! path with
    | Some Dir =>
        match children (m_nodes w) path with
        | [] => (0, forget_xattrs path (set_nodes (delete path (m_nodes w)) w))
        | _ :: _ => fail ENOTEMPTY w
        end
    | Some _ => fail ENOTDIR w
    | None => fail ENOENT w
    end.

Definition resize (len : nat) (c : string) : string :=
  (substring 0 len c ++ string_of_list_ascii (repeat zero (len - String.length c)))%string.

Definition memfs_truncate (path : string) (len : Z) : M memfs Z :=
  fun w =>
    match m_nodes w !! path with
    | Some (File c) =>
        if len <? 0 then fail EINVAL w
        else (0, set_nodes (<[path := File (resize (Z.to_nat len) c)]> (m_nodes w)) w)
    | Some Dir => fail EISDIR w
    | Some (Slink _) => fail ELOOP w
    | None => fail ENOENT w
    end.

Definition memfs_ftruncate (fd len : Z) : M memfs Z :=
  fun w =>
    match m_fds w !! fd with
    | Some (path, acc) =>
        if acc =? O_RDONLY then fail EINVAL w else memfs_truncate path len w
    | None => fail EBADF w
    end.

Definition memfs_sync (fd : Z) : M memfs Z :=
  fun w => match m_fds w !! fd with
           | Some _ => (0, w)
           | None => fail EBADF w
           end.

(** opendir(3) answers a stream positioned at the first entry, or [NULL]. *)
Definition memfs_opendir (path : string) : M memfs ptr :=
  fun w =>
    match m_nodes w !! path with
    | Some Dir =>
        let dir := lowest_free 4096 (m_dirs w) in
        (dir, set_dirs (<[dir := (dirents (children (m_nodes w) path), O)]> (m_dirs w)) w)
    | Some _ => (NULL, set_errno ENOTDIR w)
    | None => (NULL, set_errno ENOENT w)
    end.

Definition memfs_closedir (dir : ptr) : M memfs Z :=
  fun w => match m_dirs w !! dir with
           | Some _ => (0, set_dirs (delete dir (m_dirs w)) w)
           | None => fail EBADF w
           end.

(** seekdir(3) takes a cookie: 0 for the start of the stream, or the
    [d_off] of an entry for the position after that entry.  Any other value
    leaves the stream where it stands. *)
Definition cookie_position (es : list dirent) (loc : Z) : option nat :=
  if loc =? 0 then Some O
  else match list_find (fun e => d_off e = loc) es with
       | Some (i, _) => Some (S i)
       | None => None
       end.

Definition memfs_seekdir (dir : ptr) (loc : Z) : M memfs unit :=
  fun w => match m_dirs w !! dir with
           | Some (es, pos) =>
               (tt, set_dirs (<[dir := (es, default pos (cookie_position es loc))]>
                                (m_dirs w)) w)
           | None => (tt, w)
           end.

(** readdir(3) answers [NULL] at the end of the stream, errno unchanged. *)
Definition memfs_readdir (dir : ptr) : M memfs (option dirent) :=
  fun w => match m_dirs w !! dir with
           | Some (es, pos) =>
               match es !! pos with
               | Some e => (Some e, set_dirs (<[dir := (es, S pos)]> (m_dirs w)) w)
               | None => (None, w)
               end
           | None => (None, set_errno EBADF w)
           end.

Definition stamp (now old new : timespec) : timespec :=
  if tv_nsec new =? UTIME_NOW then now
  else if tv_nsec new =? UTIME_OMIT then old
  else new.

(** utimensat(2): "If pathname is absolute, then dirfd is ignored." *)
Definition memfs_utimensat (dirfd : Z) (path : string) (tv : timespec * timespec)
    (flags : Z) : M memfs Z :=
  fun w =>
    let target :=
      if is_absolute path then Some path
      else if dirfd =? AT_FDCWD then Some ("/" ++ path)%string
      else match m_fds w !! dirfd with
           | Some (d, _) => Some (d ++ "/" ++ path)%string
           | None => None
           end in
    match target with
    | Some p =>
        match m_nodes w !! p with
        | Some (Slink _) => fail ELOOP w
        | Some _ =>
            let old := default (m_now w, m_now w) (m_times w !! p) in
            (0, set_times (<[p := (stamp (m_now w) (fst old) (fst tv),
                                   stamp (m_now w) (snd old) (snd tv))]> (m_times w)) w)
        | None => fail ENOENT w
        end
    | None => fail EBADF w
    end.

(** The answer of [getxattr] and [listxattr] for the value [v]: its size
    for a probe with size 0, [ERANGE] when the buffer is too small, else the
    value in the buffer and its size. *)
Definition xattr_answer (v : string) (buf : ptr) (size : Z) : M memfs Z :=
  fun w =>
    let n := Z.of_nat (String.length v) in
    if size =? 0 then (n, w)
    else if size <? n then fail ERANGE w
    else match m_mem w !! buf with
         | Some old => (n, set_mem (<[buf := blit v old]> (m_mem w)) w)
         | None => if n =? 0 then (0, w) else fail EFAULT w
         end.

(** The names of the attributes of [path], each followed by a zero byte. *)
Definition xattr_names (x : gmap (string * string) string) (path : string) : string :=
  String.concat EmptyString
    (omap (fun kv => if bool_decide (fst (fst kv) = path)
                     then Some (snd (fst kv) ++ String zero EmptyString)%string
                     else None)
          (map_to_list x)).

Definition memfs_getxattr (path name : string) (value : ptr) (size : Z) : M memfs Z :=
  fun w =>
    match m_nodes w !! path, m_xattrs w !! (path, name) with
    | Some _, Some v => xattr_answer v value size w
    | Some _, None => fail ENODATA w
    | None, _ => fail ENOENT w
    end.

Definition memfs_listxattr (path : string) (lst : ptr) (size : Z) : M memfs Z :=
  fun w =>
    match m_nodes w !! path with
    | Some _ => xattr_answer (xattr_names (m_xattrs w) path) lst size w
    | None => fail ENOENT w
    end.

Definition memfs_setxattr (path name value : string) (size flags : Z) : M memfs Z :=
  fun w =>
    let stored w1 :=
      (0, set_xattrs (<[(path, name) := substring 0 (Z.to_nat size) value]> (m_xattrs w1)) w1) in
    match m_nodes w !! path, m_xattrs w !! (path, name) with
    | Some _, Some _ => if has_flag flags XATTR_CREATE then fail EEXIST w else stored w
    | Some _, None => if has_flag flags XATTR_REPLACE then fail ENODATA w else stored w
    | None, _ => fail ENOENT w
    end.

Definition memfs_removexattr (path name : string) : M memfs Z :=
  fun w =>
    match m_nodes w !! path, m_xattrs w !! (path, name) with
    | Some _, Some _ => (0, set_xattrs (delete (path, name) (m_xattrs w)) w)
    | Some _, None => fail ENODATA w
    | None, _ => fail ENOENT w
    end.

Definition memfs_printf (s : string) : M memfs Z :=
  fun w => (Z.of_nat (String.length s), set_stdout (m_stdout w ++ s)%string w).

#[export] Instance memfs_libc : Libc memfs := {|
  errno := m_errno;
  printf := memfs_printf;
  sys_access := fun path _ => memfs_exists path;
  sys_stat := fun path _ => memfs_exists path;
  sys_fstat := fun fd _ => memfs_sync fd;
  sys_readlink := memfs_readlink;
  sys_mknod := fun _ _ _ => fail ENOSYS;
  sys_mkdir := memfs_mkdir;
  sys_unlink := memfs_unlink;
  sys_rmdir := memfs_rmdir;
  sys_link := fun _ _ => fail ENOSYS;
  sys_symlink := memfs_symlink;
  sys_rename := fun _ _ => fail ENOSYS;
  sys_chmod := fun _ _ => fail ENOSYS;
  sys_chown := fun _ _ _ => fail ENOSYS;
  sys_truncate := memfs_truncate;
  sys_ftruncate := memfs_ftruncate;
  sys_opendir := memfs_opendir;
  sys_closedir := memfs_closedir;
  sys_seekdir := memfs_seekdir;
  sys_readdir := memfs_readdir;
  sys_open := memfs_open;
  sys_creat := memfs_creat;
  sys_close := memfs_close;
  sys_pread := memfs_pread;
  sys_pwrite := memfs_pwrite;
  sys_fallocate := fun _ _ _ _ => fail ENOSYS;
  sys_fcntl := fun _ _ _ => fail ENOSYS;
  sys_flock := fun _ _ => fail ENOSYS;
  sys_fdatasync := memfs_sync;
  sys_fsync := memfs_sync;
  sys_getxattr := memfs_getxattr;
  sys_setxattr := memfs_setxattr;
  sys_removexattr := memfs_removexattr;
  sys_listxattr := memfs_listxattr;
  sys_ioctl := fun _ _ _ => fail ENOSYS;
  sys_statvfs := fun _ _ => fail ENOSYS;
  sys_utimensat := memfs_utimensat
|}.

(** What can be observed of a [memfs]. *)
Definition memfs_symlink_target (w : memfs) (path : string) : option string :=
  match m_nodes w !! path with
  | Some (Slink t) => Some t
  | _ => None
  end.

Definition memfs_load (w : memfs) (buf : ptr) (n : nat) : string :=
  substring 0 n (default EmptyString (m_mem w !! buf)).

Definition memfs_file_size (w : memfs) (path : string) : option Z :=
  match m_nodes w !! path with
  | Some (File c) => Some (Z.of_nat (String.length c))
  | _ => None
  end.

Definition memfs_fd_mode (w : memfs) (fd : Z) : option Z :=
  snd <$> m_fds w !! fd.

Definition memfs_file_times (w : memfs) (path : string) : option (timespec * timespec) :=
  m_times w !! path.

Definition memfs_dir_view (w : memfs) (dir : ptr) : option (list dirent * nat) :=
  m_dirs w !! dir.

(** A mirrored tree to run the handlers on: the standard descriptors are
    open, and two caller buffers are mapped at 256 and 512. *)
Definition tty : string * Z := ("/dev/tty"%string, O_RDWR).

Definition world0 : memfs := {|
  m_errno := 0;
  m_nodes := list_to_map [("/", Dir); ("/d", Dir); ("/d/f", File "hello");
                          ("/d/g", File "mirror"); ("/l", Slink "abc")]%string;
  m_times := ∅;
  m_now := mk_timespec 1700000000 0;
  m_fds := list_to_map [(0, tty); (1, tty); (2, tty)];
  m_dirs := ∅;
  m_mem := list_to_map [(256, "........"); (512, "????")]%string;
  m_stdout := EmptyString;
  m_xattrs := ∅
|}.

(** ** Contracts of the calls

    What the manual pages promise of the calls whose meaning a handler
    relies on, stated over observations of the [world].  [memfs] meets each
    of them. *)

(** The offsets of a directory stream are cookies, not counts: 0 stands for
    the start, and the [d_off] of an entry for the position after it.
    [resumes_at es loc p]: in a stream with the entries [es], the cookie
    [loc] names the position [p]. *)
Definition resumes_at (es : list dirent) (loc : Z) (p : nat) : Prop :=
  (loc = 0 /\ p = O)
  \/ (loc <> 0
      /\ exists i e, es !! i = Some e /\ d_off e = loc /\ p = S i
                     /\ forall j e', es !! j = Some e' -> d_off e' = loc -> j = i).

Section Contracts.

Context {world : Type} `{K : Libc world}.

(** readlink(2): a successful call places the link's contents, cut to
    [bufsize] bytes, at [buf] and answers their number; a path that is not a
    symbolic link is an error. *)
Definition readlink_contract (symlink_target : world -> string -> option string)
    (load : world -> ptr -> nat -> string) : Prop :=
  (forall path buf bufsize w n w',
      sys_readlink path buf bufsize w = (n, w') -> n <> -1 ->
      exists t, symlink_target w path = Some t
                /\ n = Z.min (Z.of_nat (String.length t)) bufsize
                /\ load w' buf (Z.to_nat n) = substring 0 (Z.to_nat n) t)
  /\ (forall path buf bufsize w n w',
      sys_readlink path buf bufsize w = (n, w') -> symlink_target w path = None ->
      n = -1 /\ 0 < errno w').

(** open(2) and creat(2): [creat] is [open] with [O_CREAT|O_WRONLY|O_TRUNC];
    [open] answers [-1] or a descriptor, whose access mode is the one asked
    for; [O_TRUNC] with write access empties a regular file that exists. *)
Definition creat_contract (file_size : world -> string -> option Z)
    (fd_mode : world -> Z -> option Z) : Prop :=
  (forall path mode w,
      sys_creat path mode w
      = sys_open path (Z.lor O_CREAT (Z.lor O_WRONLY O_TRUNC)) (Some mode) w)
  /\ (forall path flags mode w fd w',
      sys_open path flags mode w = (fd, w') -> -1 <= fd <= INT_MAX)
  /\ (forall path flags mode w fd w',
      sys_open path flags mode w = (fd, w') -> fd <> -1 ->
      fd_mode w' fd = Some (Z.land flags O_ACCMODE))
  /\ (forall path flags mode w fd w',
      sys_open path flags mode w = (fd, w') -> fd <> -1 ->
      has_flag flags O_TRUNC = true -> Z.land flags O_ACCMODE <> O_RDONLY ->
      is_Some (file_size w path) -> file_size w' path = Some 0).

(** utimensat(2): the directory descriptor is ignored when the path is
    absolute; a successful call with ordinary nanosecond fields leaves the
    two timestamps on the file. *)
Definition utimensat_contract
    (file_times : world -> string -> option (timespec * timespec)) : Prop :=
  (forall d1 d2 path tv flags w,
      is_absolute path = true ->
      sys_utimensat d1 path tv flags w = sys_utimensat d2 path tv flags w)
  /\ (forall d path tv flags w w',
      sys_utimensat d path tv flags w = (0, w') -> is_absolute path = true ->
      ordinary_nsec (fst tv) -> ordinary_nsec (snd tv) ->
      file_times w' path = Some tv).

(** seekdir(3) and readdir(3) on an open stream, seen as its entries and a
    position among them.  [seekdir] keeps the entries and moves the position:
    to where its cookie says when the cookie is one the stream gave out
    ([resumes_at]), to some position otherwise.  [readdir] answers the entry
    at the position and steps over it, or [NULL] at the end. *)
Definition dir_stream_contract
    (dir_view : world -> ptr -> option (list dirent * nat)) : Prop :=
  (forall dir loc w es pos,
      dir_view w dir = Some (es, pos) ->
      exists pos',
        dir_view (snd (sys_seekdir dir loc w)) dir = Some (es, pos')
        /\ forall p, resumes_at es loc p -> pos' = p)
  /\ (forall dir w es pos,
      dir_view w dir = Some (es, pos) ->
      fst (sys_readdir dir w) = es !! pos
      /\ dir_view (snd (sys_readdir dir w)) dir
         = Some (es, match es !! pos with Some _ => S pos | None => pos end)).

(** The result convention of a handler that forwards to [call]: [0] when the
    call succeeds, [-errno] when it answers [-1], and the [world] as the one
    call left it. *)
Definition forwards (call handler : M world Z) : Prop :=
  forall w r w', call w = (r, w') ->
    (r <> -1 -> handler w = (0, w')) /\ (r = -1 -> handler w = (- errno w', w')).

End Contracts.

(** ** The walk of a directory, as a recursion over its entries *)

(** The buffer after the entries [es] were offered to [filler] in order, up
    to the first one for which it reported the buffer full. *)
Fixpoint emit {B : Type} (filler : fuse_fill_dir_t B) (es : list dirent) (buf : B) : B :=
  match es with
  | [] => buf
  | e :: es' =>
      let (full, buf') := filler buf (d_name e) NULL (d_off e) in
      if full =? 0 then emit filler es' buf' else buf'
  end.

(** The entries that were offered to [filler]. *)
Fixpoint visited {B : Type} (filler : fuse_fill_dir_t B) (es : list dirent) (buf : B)
  : list dirent :=
  match es with
  | [] => []
  | e :: es' =>
      let (full, buf') := filler buf (d_name e) NULL (d_off e) in
      e :: (if full =? 0 then visited filler es' buf' else [])
  end.

(** [filler], keeping a record of the names it was called with. *)
Definition traced {B : Type} (filler : fuse_fill_dir_t B)
  : fuse_fill_dir_t (B * list string) :=
  fun b name stbuf off =>
    let (full, b') := filler (fst b) name stbuf off in
    (full, (b', snd b ++ [name])).

(** A callback with room for [room] names. *)
Definition bounded_filler (room : nat) : fuse_fill_dir_t (list string) :=
  fun b name _ _ =>
    if (List.length b <? room)%nat then (0, b ++ [name]) else (1, b).

(** The handle-based requests: their handler is given [fi]. *)
Definition takes_handle {B : Type} (rq : request B) : bool :=
  match rq with
  | Fgetattr _ _ | Ftruncate _ _ | Opendir _ | Releasedir _ | Readdir _ _ _ _
  | Open _ | Create _ _ | Release _ | Read _ _ _ _ | Write _ _ _ _
  | Fallocate _ _ _ _ | Lock _ _ _ | Flock _ _ | Fsync _ _ | Ioctl _ _ _ _ _ => true
  | _ => false
  end.

(** ** Handle-based handlers and sessions *)

Section HandleContracts.

Context {world : Type} `{K : Libc world}.

(** The result convention of a handler that is given the session record
    [fi] and forwards to [call]: as [forwards], with [fi] handed back as it
    was. *)
Definition forwards_by_handle (fi : fuse_file_info) (call : M world Z)
    (handler : M world (Z * fuse_file_info)) : Prop :=
  forall w r w', call w = (r, w') ->
    (r <> -1 -> handler w = ((0, fi), w'))
    /\ (r = -1 -> handler w = ((- errno w', fi), w')).

(** The result convention of the handlers that answer a size
    ([getxattr], [listxattr]): the size through an [int], or [-errno]. *)
Definition forwards_size (call handler : M world Z) : Prop :=
  forall w n w', call w = (n, w') ->
    (n = -1 -> handler w = (- errno w', w'))
    /\ (n <> -1 -> handler w = (to_int n, w'))
    /\ (0 <= n <= INT_MAX -> handler w = (n, w')).

(** opendir(3): a stream that was opened stands at its first entry, and its
    entries carry the names the directory has. *)
Definition opendir_contract
    (dir_view : world -> ptr -> option (list dirent * nat))
    (dir_names : world -> string -> option (list string)) : Prop :=
  forall path w dir w',
    sys_opendir path w = (dir, w') -> dir <> NULL ->
    exists es, dir_view w' dir = Some (es, O)
               /\ dir_names w path = Some (List.map d_name es).

(** pread(2): a descriptor that is open for writing only cannot be read
    ([EBADF]). *)
Definition pread_mode_contract (fd_mode : world -> Z -> option Z) : Prop :=
  forall fd buf size offset w,
    fd_mode w fd = Some O_WRONLY ->
    fst (sys_pread fd buf size offset w) = -1.

End HandleContracts.

(** The request [rq] with another path argument (the first path, for the
    requests that have two). *)
Definition with_path {B : Type} (p : string) (rq : request B) : request B :=
  match rq with
  | Access _ mode => Access p mode
  | Getattr _ stbuf => Getattr p stbuf
  | Fgetattr _ stbuf => Fgetattr p stbuf
  | Readlink _ buf bufsize => Readlink p buf bufsize
  | Mknod _ mode dev => Mknod p mode dev
  | Mkdir _ mode => Mkdir p mode
  | Unlink _ => Unlink p
  | Rmdir _ => Rmdir p
  | Link _ newpath => Link p newpath
  | Symlink _ linkpath => Symlink p linkpath
  | Rename _ newpath => Rename p newpath
  | Chmod _ mode => Chmod p mode
  | Chown _ user group => Chown p user group
  | Truncate _ length => Truncate p length
  | Ftruncate _ length => Ftruncate p length
  | Opendir _ => Opendir p
  | Releasedir _ => Releasedir p
  | Readdir _ buf filler offset => Readdir p buf filler offset
  | Open _ => Open p
  | Create _ mode => Create p mode
  | Release _ => Release p
  | Read _ buf size offset => Read p buf size offset
  | Write _ buf size offset => Write p buf size offset
  | Fallocate _ mode offset len => Fallocate p mode offset len
  | Lock _ cmd lck => Lock p cmd lck
  | Flock _ op => Flock p op
  | Fsync _ datasync => Fsync p datasync
  | Getxattr _ name value size => Getxattr p name value size
  | Setxattr _ name value size flags => Setxattr p name value size flags
  | Removexattr _ name => Removexattr p name
  | Listxattr _ lst size => Listxattr p lst size
  | Ioctl _ req arg flags data => Ioctl p req arg flags data
  | Statfs _ buf => Statfs p buf
  | Utimens _ tv => Utimens p tv
  end.

(** The names a directory of the reference kernel has. *)
Definition memfs_dir_names (w : memfs) (path : string) : option (list string) :=
  match m_nodes w !! path with
  | Some Dir => Some ("." :: ".." :: children (m_nodes w) path)%string
  | _ => None
  end.

(** The reference kernel with a [readdir] that never reports the end of a
    stream: every call answers the same entry. *)
Definition endless_readdir (dir : ptr) : M memfs (option dirent) :=
  fun w => (Some (mk_dirent "again" 1), w).

Definition endless_libc : Libc memfs := {|
  errno := m_errno;
  printf := memfs_printf;
  sys_access := fun path _ => memfs_exists path;
  sys_stat := fun path _ => memfs_exists path;
  sys_fstat := fun fd _ => memfs_sync fd;
  sys_readlink := memfs_readlink;
  sys_mknod := fun _ _ _ => fail ENOSYS;
  sys_mkdir := memfs_mkdir;
  sys_unlink := memfs_unlink;
  sys_rmdir := memfs_rmdir;
  sys_link := fun _ _ => fail ENOSYS;
  sys_symlink := memfs_symlink;
  sys_rename := fun _ _ => fail ENOSYS;
  sys_chmod := fun _ _ => fail ENOSYS;
  sys_chown := fun _ _ _ => fail ENOSYS;
  sys_truncate := memfs_truncate;
  sys_ftruncate := memfs_ftruncate;
  sys_opendir := memfs_opendir;
  sys_closedir := memfs_closedir;
  sys_seekdir := memfs_seekdir;
  sys_readdir := endless_readdir;
  sys_open := memfs_open;
  sys_creat := memfs_creat;
  sys_close := memfs_close;
  sys_pread := memfs_pread;
  sys_pwrite := memfs_pwrite;
  sys_fallocate := fun _ _ _ _ => fail ENOSYS;
  sys_fcntl := fun _ _ _ => fail ENOSYS;
  sys_flock := fun _ _ => fail ENOSYS;
  sys_fdatasync := memfs_sync;
  sys_fsync := memfs_sync;
  sys_getxattr := memfs_getxattr;
  sys_setxattr := memfs_setxattr;
  sys_removexattr := memfs_removexattr;
  sys_listxattr := memfs_listxattr;
  sys_ioctl := fun _ _ _ => fail ENOSYS;
  sys_statvfs := fun _ _ => fail ENOSYS;
  sys_utimensat := memfs_utimensat
|}.

(** * Properties *)

Unset Implicit Arguments.

(** ** Conversions *)

Lemma to_int_id (z : Z) : is_int z -> to_int z = z.
Proof.
  unfold is_int, to_int, INT_MIN, INT_MAX. intros Hz.
  rewrite Z.mod_small by lia. lia.
Qed.

Lemma to_uint64_id (z : Z) : 0 <= z < 18446744073709551616 -> to_uint64 z = z.
Proof. intros Hz. unfold to_uint64. now rewrite Z.mod_small. Qed.

(** A descriptor stored in the [uint64_t] handle slot and read back as an
    [int] is the descriptor. *)
Lemma to_int_to_uint64 (z : Z) : is_int z -> to_int (to_uint64 z) = z.
Proof.
  unfold is_int, to_int, to_uint64, INT_MIN, INT_MAX. intros Hz.
  Z.div_mod_to_equations. lia.
Qed.

Lemma to_uint64_minus_one (z : Z) :
  -1 <= z <= INT_MAX -> (to_uint64 z =? to_uint64 (-1)) = (z =? -1).
Proof.
  unfold INT_MAX. intros Hz. destruct (Z.eqb_spec z (-1)) as [-> | Hne].
  - apply Z.eqb_refl.
  - apply Z.eqb_neq. rewrite to_uint64_id by lia. vm_compute. intros E. lia.
Qed.

(** ** The monad *)

Lemma bind_run {W A B : Type} (m : M W A) (k : A -> M W B) (w : W) a w' :
  m w = (a, w') -> bind m k w = k a w'.
Proof. unfold bind. now intros ->. Qed.

Section Forwarding.

Context {world : Type} `{K : Libc world}.

(** The shape every path handler has. *)
Lemma forwards_intro (call : M world Z) :
  forwards call (r <- call ;; if r =? -1 then neg_errno else ret 0).
Proof.
  intros w r w' Hcall. rewrite (bind_run _ _ _ _ _ Hcall). split; intros Hr.
  - apply Z.eqb_neq in Hr. now rewrite Hr.
  - subst r. reflexivity.
Qed.

(** C2: each path-based node and metadata handler ([access], [getattr],
    [mknod], [mkdir], [unlink], [rmdir], [link], [symlink], [rename],
    [chmod], [chown], [truncate], [setxattr], [removexattr], [statfs])
    returns 0 when its libc call succeeds and exactly [-errno] when the call
    answers [-1]; the call is made once and the [world] is left as that one
    call left it ([symlink] prints its notice first). *)
Theorem path_operations_forward_errno :
  (forall path mode, forwards (sys_access path mode) (mirror_access path mode))
  /\ (forall path stbuf, forwards (sys_stat path stbuf) (mirror_getattr path stbuf))
  /\ (forall path mode dev, forwards (sys_mknod path mode dev) (mirror_mknod path mode dev))
  /\ (forall path mode, forwards (sys_mkdir path mode) (mirror_mkdir path mode))
  /\ (forall path, forwards (sys_unlink path) (mirror_unlink path))
  /\ (forall path, forwards (sys_rmdir path) (mirror_rmdir path))
  /\ (forall oldpath newpath,
        forwards (sys_link oldpath newpath) (mirror_link oldpath newpath))
  /\ (forall target linkpath,
        forwards (printf ("Symlink '" ++ target ++ "' -> '" ++ linkpath ++ "'")%string ;;;
                  sys_symlink target linkpath)
                 (mirror_symlink target linkpath))
  /\ (forall oldpath newpath,
        forwards (sys_rename oldpath newpath) (mirror_rename oldpath newpath))
  /\ (forall path mode, forwards (sys_chmod path mode) (mirror_chmod path mode))
  /\ (forall path user group,
        forwards (sys_chown path user group) (mirror_chown path user group))
  /\ (forall path length,
        forwards (sys_truncate path length) (mirror_truncate path length))
  /\ (forall path name value size flags,
        forwards (sys_setxattr path name value size flags)
                 (mirror_setxattr path name value size flags))
  /\ (forall path name,
        forwards (sys_removexattr path name) (mirror_removexattr path name))
  /\ (forall path buf, forwards (sys_statvfs path buf) (mirror_statfs path buf)).
Proof.
  repeat apply conj; try (intros; apply forwards_intro).
  (* symlink: the notice, then the call *)
  intros target linkpath w r w' Hcall. unfold mirror_symlink.
  unfold bind in Hcall |- *.
  destruct (printf _ w) as [n w0]. rewrite Hcall.
  split; intros Hr.
  - apply Z.eqb_neq in Hr. now rewrite Hr.
  - subst r. reflexivity.
Qed.

(** C3: [read] returns the count of the positioned read when it succeeds
    (zero at the end of the file) and zero, not a negative value, when the
    positioned read fails: the two cannot be told apart.  The count is
    returned through an [int]. *)
Theorem mirror_read_result :
  forall path buf size offset fi w n w',
    sys_pread (to_int (fh fi)) buf size offset w = (n, w') ->
    (n = -1 -> mirror_read path buf size offset fi w = ((0, fi), w'))
    /\ (n = 0 -> mirror_read path buf size offset fi w = ((0, fi), w'))
    /\ (0 <= n <= INT_MAX -> mirror_read path buf size offset fi w = ((n, fi), w'))
    /\ (n <> -1 -> mirror_read path buf size offset fi w = ((to_int n, fi), w')).
Proof.
  intros path buf size offset fi w n w' Hcall.
  unfold mirror_read. rewrite (bind_run _ _ _ _ _ Hcall).
  assert (Hok : n <> -1 -> (if n =? -1 then ret (0, fi) else ret (to_int n, fi)) w'
                           = ((to_int n, fi), w')).
  { intros Hn. apply Z.eqb_neq in Hn. now rewrite Hn. }
  repeat split.
  - now intros ->.
  - intros ->. now rewrite Hok.
  - intros Hn. rewrite Hok by lia. rewrite to_int_id; [reflexivity|].
    unfold is_int, INT_MIN. lia.
  - exact Hok.
Qed.

(** C4: [release] calls [close] on the descriptor in the handle slot and
    returns 0 whatever [close] answers; the descriptor is the one [open] or
    [create] stored. *)
Theorem mirror_release_discards_close :
  forall path fi w r w',
    sys_close (to_int (fh fi)) w = (r, w') ->
    mirror_release path fi w = ((0, fi), w')
    /\ (forall fd, is_int fd -> to_int (fh (set_fh fi (to_uint64 fd))) = fd).
Proof.
  intros path fi w r w' Hcall. split.
  - unfold mirror_release. now rewrite (bind_run _ _ _ _ _ Hcall).
  - intros fd Hfd. simpl. now apply to_int_to_uint64.
Qed.

(** C7: [write] makes one positioned write at the caller's offset and
    returns the count written when it succeeds, [-errno] when it fails. *)
Theorem mirror_write_result :
  forall path buf size offset fi w n w',
    sys_pwrite (to_int (fh fi)) buf size offset w = (n, w') ->
    (n = -1 -> mirror_write path buf size offset fi w = ((- errno w', fi), w'))
    /\ (0 <= n <= INT_MAX -> mirror_write path buf size offset fi w = ((n, fi), w'))
    /\ (n <> -1 -> mirror_write path buf size offset fi w = ((to_int n, fi), w')).
Proof.
  intros path buf size offset fi w n w' Hcall.
  unfold mirror_write. rewrite (bind_run _ _ _ _ _ Hcall).
  assert (Hok : n <> -1 ->
                (if n =? -1 then e <- neg_errno ;; ret (e, fi) else ret (to_int n, fi)) w'
                = ((to_int n, fi), w')).
  { intros Hn. apply Z.eqb_neq in Hn. now rewrite Hn. }
  repeat split.
  - now intros ->.
  - intros Hn. rewrite Hok by lia. rewrite to_int_id; [reflexivity|].
    unfold is_int, INT_MIN. lia.
  - exact Hok.
Qed.

End Forwarding.

(** ** The session record *)

Ltac innermost c :=
  lazymatch c with
  | context [let (_, _) := _ in _] => fail
  | context [if _ then _ else _] => fail
  | _ => idtac
  end.

Ltac run_calls :=
  repeat match goal with
    | |- context [let (_, _) := ?c in _] => innermost c; destruct c
    | |- context [if ?b then _ else _] => innermost b; destruct b
    end.

Section Session.

Context {world : Type} `{K : Libc world}.

Lemma mirror_readdir_session {B : Type} fuel path (buf : B) filler offset fi w :
  snd (fst (mirror_readdir fuel path buf filler offset fi w)) = fi.
Proof.
  unfold mirror_readdir, bind.
  destruct (sys_seekdir (fh fi) offset w) as [[] w1].
  destruct (readdir_loop fuel (fh fi) filler buf w1) as [[buf'|] w2]; reflexivity.
Qed.

(** C9: the handle slot is assigned by [open], [create] and [opendir] only:
    any other request leaves the whole session record as it was, and no
    request changes its [flags]; a path-based request does not even see the
    record, so its result and its effect are the same under any session. The
    table holds no state of its own: a reply is a function of the request,
    the session record and the [world] the libc calls act upon. *)
Theorem dispatch_session_frame :
  forall (B : Type) fuel (rq : request B) fi w,
    (opens_session rq = false ->
     session (fst (dispatch mirror_oper fuel rq fi w)) = fi)
    /\ flags (session (fst (dispatch mirror_oper fuel rq fi w))) = flags fi
    /\ (takes_handle rq = false ->
        forall fi',
          status (fst (dispatch mirror_oper fuel rq fi' w))
          = status (fst (dispatch mirror_oper fuel rq fi w))
          /\ snd (dispatch mirror_oper fuel rq fi' w)
             = snd (dispatch mirror_oper fuel rq fi w)
          /\ session (fst (dispatch mirror_oper fuel rq fi' w)) = fi').
Proof.
  intros B fuel rq fi w.
  destruct rq; cbn [dispatch opens_session takes_handle mirror_oper
                    access getattr fgetattr readlink mknod mkdir unlink rmdir link
                    symlink rename chmod chown truncate ftruncate opendir releasedir
                    readdir open create release read write fallocate lock flock
                    fsync getxattr setxattr removexattr listxattr ioctl statfs utimens];
    (repeat apply conj; [intros Hrq; try discriminate Hrq | | intros Hrq; try discriminate Hrq; intros fi']).
  all: try (unfold by_path, bind; run_calls; repeat apply conj; reflexivity).
  all: try (unfold by_handle, bind, ret, neg_errno, set_fh,
              mirror_fgetattr, mirror_ftruncate, mirror_opendir, mirror_releasedir,
              mirror_open, mirror_create, mirror_release, mirror_read, mirror_write,
              mirror_fallocate, mirror_lock, mirror_flock, mirror_fsync, mirror_ioctl,
              bind, ret, neg_errno, set_fh;
            run_calls; reflexivity).
  all: unfold bind, ret;
    match goal with
    | |- context [mirror_readdir ?f ?p ?b ?fl ?o ?s ?v] =>
        pose proof (mirror_readdir_session f p b fl o s v) as Hfi;
        destruct (mirror_readdir f p b fl o s v) as [[out fi1] w1]
    end;
    cbn in Hfi |- *; now subst fi1.
Qed.

End Session.

(** ** The directory walk *)

Section Walk.

Context {B : Type} (filler : fuse_fill_dir_t B).

Lemma emit_traced (es : list dirent) (b : B) (names : list string) :
  emit (traced filler) es (b, names)
  = (emit filler es b, names ++ List.map d_name (visited filler es b)).
Proof.
  revert b names. induction es as [|e es IH]; intros b names; cbn [emit visited].
  - now rewrite app_nil_r.
  - unfold traced at 1. cbn [fst snd].
    destruct (filler b (d_name e) NULL (d_off e)) as [full b'].
    destruct (full =? 0).
    + rewrite IH. cbn [List.map]. now rewrite <- app_assoc.
    + reflexivity.
Qed.

(** The entries offered are an initial part of the stream. *)
Lemma visited_prefix (es : list dirent) (b : B) :
  exists rest, es = visited filler es b ++ rest.
Proof.
  revert b. induction es as [|e es IH]; intros b; cbn [visited].
  - now exists [].
  - destruct (filler b (d_name e) NULL (d_off e)) as [full b'].
    destruct (full =? 0).
    + destruct (IH b') as [rest Hrest]. exists rest. cbn. now rewrite <- Hrest.
    + now exists es.
Qed.

(** The walk stops before the end only after the callback reported the
    buffer full, on the last entry it was offered. *)
Lemma visited_stops_when_full (es : list dirent) (b : B) :
  visited filler es b = es
  \/ exists pre e, visited filler es b = pre ++ [e]
                   /\ fst (filler (emit filler pre b) (d_name e) NULL (d_off e)) <> 0.
Proof.
  revert b. induction es as [|e es IH]; intros b; cbn [visited].
  - now left.
  - destruct (filler b (d_name e) NULL (d_off e)) as [full b'] eqn:Hcall.
    destruct (Z.eqb_spec full 0) as [Hz | Hnz].
    + destruct (IH b') as [Hall | (pre & e' & Hpre & Hfull)].
      * left. now rewrite Hall.
      * right. exists (e :: pre), e'. split.
        -- now rewrite Hpre.
        -- cbn [emit]. rewrite Hcall. subst full. exact Hfull.
    + right. exists [], e. split; [reflexivity|]. cbn [emit]. now rewrite Hcall.
Qed.

Lemma visited_all (es : list dirent) (b : B) :
  (forall b' name off, fst (filler b' name NULL off) = 0) ->
  visited filler es b = es.
Proof.
  intros Hroom. revert b. induction es as [|e es IH]; intros b; cbn [visited].
  - reflexivity.
  - specialize (Hroom b (d_name e) (d_off e)).
    destruct (filler b (d_name e) NULL (d_off e)) as [full b'].
    cbn in Hroom. subst full. cbn. now rewrite IH.
Qed.

End Walk.

Section Readdir.

Context {world : Type} `{K : Libc world}.
Variable dir_view : world -> ptr -> option (list dirent * nat).

(** The loop, once the stream is known: enough fuel lets it run to its end,
    and what it does to the buffer is [emit] over the entries from the
    position on. *)
Lemma readdir_loop_emit {B : Type} (filler : fuse_fill_dir_t B) :
  dir_stream_contract dir_view ->
  forall fuel dir es pos buf w,
    dir_view w dir = Some (es, pos) ->
    (List.length es - pos < fuel)%nat ->
    exists w', readdir_loop fuel dir filler buf w
               = (Some (emit filler (drop pos es) buf), w').
Proof.
  intros [_ Hread]. induction fuel as [|fuel IH]; intros dir es pos buf w Hview Hfuel.
  - lia.
  - cbn [readdir_loop]. unfold bind.
    destruct (Hread dir w es pos Hview) as [Hentry Hview'].
    destruct (sys_readdir dir w) as [entry w1]. cbn [fst snd] in Hentry, Hview'.
    subst entry. destruct (es !! pos) as [e|] eqn:He.
    + rewrite (drop_S _ _ _ He). cbn [emit].
      destruct (filler buf (d_name e) NULL (d_off e)) as [full buf'].
      destruct (full =? 0).
      * apply IH; [exact Hview'|]. apply lookup_lt_Some in He. lia.
      * now eexists.
    + apply lookup_ge_None in He. rewrite drop_ge by exact He. now eexists.
Qed.

(** The handler, once the stream is known: [seekdir] leaves the stream at
    some position [start], the one the offset names when it is a cookie of
    the stream, and the walk is [emit] over the entries from [start] on. *)
Lemma mirror_readdir_emit :
  dir_stream_contract dir_view ->
  forall fuel path offset fi w es pos,
    dir_view w (fh fi) = Some (es, pos) ->
    (List.length es < fuel)%nat ->
    exists start,
      (forall p, resumes_at es offset p -> start = p)
      /\ forall (B : Type) (filler : fuse_fill_dir_t B) buf,
           exists w', mirror_readdir fuel path buf filler offset fi w
                      = ((Some (0, emit filler (drop start es) buf), fi), w').
Proof.
  intros Hstream fuel path offset fi w es pos Hview Hfuel.
  destruct (proj1 Hstream (fh fi) offset w es pos Hview) as (start & Hseek & Hstart).
  exists start. split; [exact Hstart|].
  intros B filler buf. unfold mirror_readdir, bind.
  destruct (sys_seekdir (fh fi) offset w) as [[] w1]. cbn [snd] in Hseek.
  destruct (readdir_loop_emit filler Hstream fuel (fh fi) es start buf w1 Hseek)
    as [w2 Hloop]; [lia|].
  rewrite Hloop. now eexists.
Qed.

(** C5: on an open directory stream and for every offset, [readdir] seeks
    to the offset, then offers every entry from the position the stream
    then has to its end to the callback, once each and in the order of the
    stream, until the end of the stream or until the callback reports the
    buffer full, and returns 0.  The position is the start of the stream for
    offset 0, and the entry after the one whose [d_off] the offset is.  A
    callback that keeps a record of the names it is called with ends with
    the names of the entries it was offered; on the handle of a directory
    that [opendir] opened, from offset 0 and with room in the buffer, these
    are the names of the directory, each as often as the directory has it. *)
Theorem mirror_readdir_walks_stream :
  forall dir_names,
    dir_stream_contract dir_view ->
    opendir_contract dir_view dir_names ->
    (forall (B : Type) (filler : fuse_fill_dir_t B) fuel path buf offset fi w es pos,
        dir_view w (fh fi) = Some (es, pos) ->
        (List.length es < fuel)%nat ->
        exists start,
          (forall p, resumes_at es offset p -> start = p)
          /\ (offset = 0 -> start = O)
          /\ let rest := drop start es in
             (exists w', mirror_readdir fuel path buf filler offset fi w
                         = ((Some (0, emit filler rest buf), fi), w'))
             /\ (exists w', mirror_readdir fuel path (buf, []) (traced filler) offset fi w
                            = ((Some (0, (emit filler rest buf,
                                          List.map d_name (visited filler rest buf))), fi),
                               w'))
             /\ (exists after, rest = visited filler rest buf ++ after)
             /\ (visited filler rest buf = rest
                 \/ exists pre e,
                      visited filler rest buf = pre ++ [e]
                      /\ fst (filler (emit filler pre buf) (d_name e) NULL (d_off e)) <> 0)
             /\ ((forall b name off, fst (filler b name NULL off) = 0) ->
                 visited filler rest buf = rest))
    /\ (forall (B : Type) (filler : fuse_fill_dir_t B) path w dir w1 names fi,
           sys_opendir path w = (dir, w1) -> dir <> NULL -> fh fi = dir ->
           dir_names w path = Some names ->
           (forall b name off, fst (filler b name NULL off) = 0) ->
           forall fuel buf,
             (List.length names < fuel)%nat ->
             exists buf' w2,
               mirror_readdir fuel path (buf, []) (traced filler) 0 fi w1
               = ((Some (0, (buf', names)), fi), w2)).
Proof.
  intros dir_names Hstream Hopen. split.
  - intros B filler fuel path buf offset fi w es pos Hview Hfuel.
    destruct (mirror_readdir_emit Hstream fuel path offset fi w es pos Hview Hfuel)
      as (start & Hstart & Hrun).
    exists start. split; [exact Hstart|]. split.
    { intros ->. apply Hstart. now left. }
    intros rest. repeat apply conj.
    + exact (Hrun B filler buf).
    + destruct (Hrun (B * list string)%type (traced filler) (buf, [])) as [w' Hrun'].
      exists w'. rewrite Hrun'. fold rest. now rewrite emit_traced.
    + apply visited_prefix.
    + apply visited_stops_when_full.
    + apply visited_all.
  - intros B filler path w dir w1 names fi Hcall Hdir Hfh Hnames Hroom fuel buf Hfuel.
    destruct (Hopen path w dir w1 Hcall Hdir) as (es & Hview & Hes).
    rewrite Hnames in Hes. injection Hes as ->. rewrite length_map in Hfuel.
    rewrite <- Hfh in Hview.
    destruct (mirror_readdir_emit Hstream fuel path 0 fi w1 es 0 Hview Hfuel)
      as (start & Hstart & Hrun).
    assert (start = O) as -> by (apply Hstart; now left).
    destruct (Hrun (B * list string)%type (traced filler) (buf, [])) as [w2 Hrun'].
    change (drop 0 es) with es in Hrun'.
    rewrite emit_traced, (visited_all filler es buf Hroom) in Hrun'.
    now exists (emit filler es buf), w2.
Qed.

End Readdir.

(** ** The reference kernel meets the contracts *)

Lemma substring_0_length (s : string) : substring 0 (String.length s) s = s.
Proof. induction s as [|c s IH]; cbn; [reflexivity | now rewrite IH]. Qed.

Lemma length_substring_0 (n : nat) (s : string) :
  String.length (substring 0 n s) = Nat.min n (String.length s).
Proof.
  revert n. induction s as [|c s IH]; intros [|n]; cbn; try reflexivity.
  now rewrite IH.
Qed.

Lemma substring_0_app (data rest : string) :
  substring 0 (String.length data) (data ++ rest)%string = data.
Proof. induction data as [|c data IH]; simpl; [now destruct rest | now rewrite IH]. Qed.

Lemma substring_0_idem (n : nat) (s : string) :
  substring 0 (String.length (substring 0 n s)) s = substring 0 n s.
Proof.
  revert n. induction s as [|c s IH]; intros [|n]; cbn; try reflexivity.
  now rewrite IH.
Qed.

Lemma lowest_free_ge {V : Type} (base : Z) (m : gmap Z V) : base <= lowest_free base m.
Proof.
  unfold lowest_free.
  destruct (head _) as [x|] eqn:Hhead; cbn; [|lia].
  apply head_Some_elem_of, list_elem_of_filter in Hhead as [_ Hx].
  apply list_elem_of_In, in_map_iff in Hx as (i & <- & _). lia.
Qed.

Lemma memfs_readlink_contract :
  readlink_contract (K := memfs_libc) memfs_symlink_target memfs_load.
Proof.
  split; intros path buf bufsize w n w' Hcall; cbn in Hcall;
    unfold memfs_readlink, memfs_symlink_target, fail in *.
  - intros Hn.
    destruct (m_nodes w !! path) as [[c|t|]|]; try (simplify_eq; lia).
    destruct (Z.leb_spec bufsize 0) as [Hle | Hgt]; [simplify_eq; lia|].
    destruct (m_mem w !! buf) as [old|]; [|simplify_eq; lia].
    simplify_eq. exists t. split; [reflexivity|]. split.
    + rewrite length_substring_0. lia.
    + unfold memfs_load. cbn. rewrite lookup_insert_eq. cbn.
      rewrite Nat2Z.id. unfold blit.
      now rewrite substring_0_app, substring_0_idem.
  - intros Hnone.
    destruct (m_nodes w !! path) as [[c|t|]|]; simplify_eq; cbn; unfold EINVAL, ENOENT; lia.
Qed.

Lemma memfs_open_cases path flags mode w fd w' :
  memfs_open path flags mode w = (fd, w') ->
  (fd = -1 /\ exists e, w' = set_errno e w)
  \/ (0 <= fd < OPEN_MAX
      /\ exists nodes,
           w' = set_fds (<[fd := (path, Z.land flags O_ACCMODE)]> (m_fds w)) (set_nodes nodes w)
           /\ (has_flag flags O_TRUNC = true -> Z.land flags O_ACCMODE <> O_RDONLY ->
               forall c, m_nodes w !! path = Some (File c) ->
                         nodes !! path = Some (File EmptyString))).
Proof.
  unfold memfs_open, fail. intros Hcall.
  pose proof (lowest_free_ge 0 (m_fds w)) as Hfd.
  assert (Hsame : set_nodes (m_nodes w) w = w) by now destruct w.
  repeat case_match; simplify_eq; try (left; split; [reflexivity | now eexists]).
  all: right; (split; [lia|]); eexists;
    (split; [first [reflexivity | rewrite Hsame; reflexivity]|]).
  all: intros Htrunc Hacc c' Hc'; try (now rewrite lookup_insert_eq); simplify_eq.
  all: match goal with
       | H : _ && _ = false |- _ => rewrite Htrunc in H; cbn in H;
           apply negb_false_iff, Z.eqb_eq in H; contradiction
       end.
Qed.

Lemma memfs_creat_contract :
  creat_contract (K := memfs_libc) memfs_file_size memfs_fd_mode.
Proof.
  repeat apply conj.
  - reflexivity.
  - intros path flags mode w fd w' Hcall.
    apply memfs_open_cases in Hcall as [[-> _] | [Hfd _]]; unfold INT_MAX, OPEN_MAX in *; lia.
  - intros path flags mode w fd w' Hcall Hfd.
    apply memfs_open_cases in Hcall as [[-> _] | [_ (nodes & -> & _)]]; [lia|].
    unfold memfs_fd_mode. cbn. now rewrite lookup_insert_eq.
  - intros path flags mode w fd w' Hcall Hfd Htrunc Hacc [size Hsize].
    apply memfs_open_cases in Hcall as [[-> _] | [_ (nodes & -> & Hnodes)]]; [lia|].
    unfold memfs_file_size in *. cbn.
    destruct (m_nodes w !! path) as [[c| |]|]; try discriminate Hsize.
    now rewrite (Hnodes Htrunc Hacc c eq_refl).
Qed.

Lemma memfs_utimensat_contract :
  utimensat_contract (K := memfs_libc) memfs_file_times.
Proof.
  split.
  - intros d1 d2 path tv flags w Habs. cbn. unfold memfs_utimensat. now rewrite Habs.
  - intros d path [atime mtime] flags w w' Hcall Habs Ha Hm. cbn in Hcall, Ha, Hm.
    unfold memfs_utimensat, fail in Hcall. rewrite Habs in Hcall.
    destruct (m_nodes w !! path) as [[c|t|]|]; simplify_eq.
    all: unfold memfs_file_times; cbn; rewrite lookup_insert_eq.
    all: unfold stamp, ordinary_nsec, UTIME_NOW, UTIME_OMIT in *.
    all: destruct (Z.eqb_spec (tv_nsec atime) 1073741823); [lia|].
    all: destruct (Z.eqb_spec (tv_nsec atime) 1073741822); [lia|].
    all: destruct (Z.eqb_spec (tv_nsec mtime) 1073741823); [lia|].
    all: destruct (Z.eqb_spec (tv_nsec mtime) 1073741822); [lia|].
    all: reflexivity.
Qed.

Lemma memfs_dir_stream_contract :
  dir_stream_contract (K := memfs_libc) memfs_dir_view.
Proof.
  unfold memfs_dir_view. split.
  - intros dir loc w es pos Hview. cbn. unfold memfs_seekdir. rewrite Hview. cbn.
    rewrite lookup_insert_eq. eexists. split; [reflexivity|].
    intros p [[-> ->] | (Hloc & i & e & He & Hoff & -> & Honly)]; [reflexivity|].
    unfold cookie_position. apply Z.eqb_neq in Hloc. rewrite Hloc.
    destruct (list_find (fun e0 => d_off e0 = loc) es) as [[j x]|] eqn:Hfind; cbn.
    + apply list_find_Some in Hfind as (Hj & Hx & _).
      now rewrite (Honly j x Hj Hx).
    + apply list_find_None in Hfind.
      exfalso. exact (proj1 (Forall_lookup _ _) Hfind i e He Hoff).
  - intros dir w es pos Hview. cbn. unfold memfs_readdir. rewrite Hview.
    destruct (es !! pos) as [e|]; cbn; [|now split].
    now rewrite lookup_insert_eq.
Qed.

Lemma dirents_names (names : list string) :
  List.map d_name (dirents names) = ("." :: ".." :: names)%string.
Proof.
  assert (H : forall (l : list string) (f : nat -> string -> dirent),
             (forall i n, d_name (f i n) = n) -> List.map d_name (imap f l) = l).
  { induction l as [|x l IH]; intros f Hf; [reflexivity|].
    rewrite imap_cons. cbn [List.map]. rewrite Hf. f_equal. apply IH.
    intros i n. apply Hf. }
  unfold dirents. cbn [List.map d_name]. f_equal. f_equal. apply H. reflexivity.
Qed.

Lemma memfs_opendir_contract :
  opendir_contract (K := memfs_libc) memfs_dir_view memfs_dir_names.
Proof.
  intros path w dir w' Hcall Hdir. cbn in Hcall.
  unfold memfs_opendir, memfs_dir_view, memfs_dir_names in *.
  destruct (m_nodes w !! path) as [[c|t|]|]; simplify_eq; try (now contradiction Hdir).
  exists (dirents (children (m_nodes w) path)). split.
  - cbn. now rewrite lookup_insert_eq.
  - now rewrite dirents_names.
Qed.

(** ** Handlers that rely on what their call means *)

Section Semantics.

Context {world : Type} `{K : Libc world}.

(** What [mirror_open] returns, whatever [open] answers. *)
Lemma mirror_open_result path fi w fd w' :
  sys_open path (flags fi) None w = (fd, w') ->
  mirror_open path fi w
  = ((if to_uint64 fd =? 0 then 0 else - errno w', set_fh fi (to_uint64 fd)), w').
Proof.
  intros Hcall. unfold mirror_open. rewrite (bind_run _ _ _ _ _ Hcall). cbn [fh set_fh].
  now destruct (to_uint64 fd =? 0).
Qed.

(** C6, as the code has it: [readlink] returns 0 when the call succeeds,
    with the link's target at the start of the buffer, whole when the buffer
    has room for it and cut to the buffer's size when it has not; it
    returns [-errno] when the call fails, which it does when the path is
    not a symbolic link. *)
Theorem mirror_readlink_truncates :
  forall symlink_target load,
    readlink_contract symlink_target load ->
    forall path buf bufsize w n w',
      sys_readlink path buf bufsize w = (n, w') ->
      (n <> -1 ->
       mirror_readlink path buf bufsize w = (0, w')
       /\ exists t,
            symlink_target w path = Some t
            /\ n = Z.min (Z.of_nat (String.length t)) bufsize
            /\ load w' buf (Z.to_nat n) = substring 0 (Z.to_nat n) t
            /\ (Z.of_nat (String.length t) <= bufsize ->
                load w' buf (String.length t) = t))
      /\ (n = -1 -> mirror_readlink path buf bufsize w = (- errno w', w'))
      /\ (symlink_target w path = None ->
          mirror_readlink path buf bufsize w = (- errno w', w') /\ - errno w' < 0).
Proof.
  intros symlink_target load [Hok Hnolink] path buf bufsize w n w' Hcall.
  assert (Hfwd : forwards (sys_readlink path buf bufsize) (mirror_readlink path buf bufsize))
    by apply forwards_intro.
  destruct (Hfwd w n w' Hcall) as [Hsucc Hfail].
  repeat apply conj.
  - intros Hn. split; [now apply Hsucc|].
    destruct (Hok path buf bufsize w n w' Hcall Hn) as (t & Ht & Hlen & Hload).
    exists t. repeat apply conj; try assumption.
    intros Hroom. rewrite Z.min_l in Hlen by exact Hroom.
    subst n. rewrite Nat2Z.id in Hload. now rewrite substring_0_length in Hload.
  - exact Hfail.
  - intros Hnone. destruct (Hnolink path buf bufsize w n w' Hcall Hnone) as [Hn Herr].
    split; [now apply Hfail | lia].
Qed.

(** C8: for an absolute path, [utimens] is [utimensat] on the path whatever
    directory descriptor the call is given, so no directory (the working
    directory included) takes part; it passes on both timestamps with their
    nanoseconds, which the file then carries, and returns 0 on success and
    [-errno] on failure. *)
Theorem mirror_utimens_by_path :
  forall file_times,
    utimensat_contract file_times ->
    forall path tv w dirfd r w',
      is_absolute path = true ->
      sys_utimensat dirfd path tv 0 w = (r, w') ->
      (r <> -1 -> mirror_utimens path tv w = (0, w'))
      /\ (r = -1 -> mirror_utimens path tv w = (- errno w', w'))
      /\ (r = 0 -> ordinary_nsec (fst tv) -> ordinary_nsec (snd tv) ->
          file_times w' path = Some tv).
Proof.
  intros file_times [Hdirfd Hset] path tv w dirfd r w' Habs Hcall.
  rewrite (Hdirfd dirfd (-1) path tv 0 w Habs) in Hcall.
  assert (Hfwd : forwards (sys_utimensat (-1) path tv 0) (mirror_utimens path tv))
    by apply forwards_intro.
  destruct (Hfwd w r w' Hcall) as [Hsucc Hfail].
  repeat apply conj; try assumption.
  intros -> Ha Hm. exact (Hset (-1) path tv 0 w w' Hcall Habs Ha Hm).
Qed.

(** C10: [create] is [open] with [O_CREAT|O_WRONLY|O_TRUNC] and the given
    mode: the descriptor is stored in the handle slot, its access mode is
    write-only, a regular file that was at the path is left empty, and the
    result is 0; when the call fails the result is [-errno]. *)
Theorem mirror_create_truncates_write_only :
  forall file_size fd_mode,
    creat_contract file_size fd_mode ->
    forall path mode fi w fd w',
      sys_open path (Z.lor O_CREAT (Z.lor O_WRONLY O_TRUNC)) (Some mode) w = (fd, w') ->
      (fd = -1 ->
       mirror_create path mode fi w = ((- errno w', set_fh fi (to_uint64 (-1))), w'))
      /\ (fd <> -1 ->
          mirror_create path mode fi w = ((0, set_fh fi fd), w')
          /\ to_int (fh (set_fh fi fd)) = fd
          /\ fd_mode w' fd = Some O_WRONLY
          /\ (is_Some (file_size w path) -> file_size w' path = Some 0)).
Proof.
  intros file_size fd_mode (Hcreat & Hrange & Hmode & Htrunc) path mode fi w fd w' Hcall.
  pose proof (Hrange _ _ _ _ _ _ Hcall) as Hfd.
  assert (Hrun : mirror_create path mode fi w
                 = ((if fd =? -1 then - errno w' else 0, set_fh fi (to_uint64 fd)), w')).
  { unfold mirror_create, bind. rewrite Hcreat, Hcall. cbn [fh set_fh].
    rewrite (to_uint64_minus_one fd Hfd). now destruct (fd =? -1). }
  split.
  - intros ->. exact Hrun.
  - intros Hne. unfold INT_MAX in Hfd.
    rewrite Hrun, to_uint64_id by lia.
    apply Z.eqb_neq in Hne as Hneb. rewrite Hneb.
    repeat apply conj.
    + reflexivity.
    + cbn [fh set_fh]. apply to_int_id. unfold is_int, INT_MIN, INT_MAX. lia.
    + now rewrite (Hmode _ _ _ _ _ _ Hcall Hne).
    + intros Hsize. apply (Htrunc _ _ _ _ _ _ Hcall Hne); [reflexivity | discriminate | exact Hsize].
Qed.

End Semantics.

(** ** Runs on the reference kernel *)

(** C1, where the code departs from it: after a request that failed (here a
    [getattr] of a path that does not exist, which leaves [ENOENT] in errno),
    [open] of an existing file succeeds with descriptor 3, and [mirror_open]
    stores 3 in the handle slot but returns [-ENOENT]: its test is
    [!= 0] where [mirror_create] has [== -1]. *)
Theorem mirror_open_success_reported_as_failure :
  let w := snd (mirror_getattr "/nope" 512 world0) in
  errno w = ENOENT
  /\ fst (sys_open "/d/f" O_RDONLY None w) = 3
  /\ errno (snd (sys_open "/d/f" O_RDONLY None w)) = ENOENT
  /\ fst (mirror_open "/d/f" (mk_fi O_RDONLY 0) w) = (- ENOENT, mk_fi O_RDONLY 3).
Proof.
  intros w. repeat apply conj; vm_compute; reflexivity.
Qed.

Lemma path_operations_forward_errno_witness :
  mirror_unlink "/nope" world0 = (- ENOENT, set_errno ENOENT world0)
  /\ fst (mirror_unlink "/d/f" world0) = 0
  /\ fst (mirror_chmod "/d/f" 420 world0) = - ENOSYS.
Proof.
  destruct (path_operations_forward_errno (K := memfs_libc))
    as (_ & _ & _ & _ & Hunlink & _ & _ & _ & _ & Hchmod & _).
  repeat apply conj.
  - now apply (Hunlink "/nope" world0 (-1) (set_errno ENOENT world0)).
  - destruct (Hunlink "/d/f" world0 0 (snd (sys_unlink "/d/f" world0))) as [Hsucc _].
    + vm_compute. reflexivity.
    + now rewrite Hsucc.
  - destruct (Hchmod "/d/f" 420 world0 (-1) (set_errno ENOSYS world0)) as [_ Hfail].
    + reflexivity.
    + now rewrite Hfail.
Defined.

Lemma mirror_read_result_witness :
  let fi := mk_fi O_RDONLY 3 in
  let w := snd (mirror_open "/d/f" (mk_fi O_RDONLY 0) world0) in
  let w' := snd (sys_pread 3 256 5 0 w) in
  let wc := snd (mirror_create "/d/g" 420 (mk_fi O_WRONLY 0) world0) in
  sys_pread (to_int (fh fi)) 256 5 0 w = (5, w')
  /\ mirror_read "/d/f" 256 5 0 fi w = ((5, fi), w')
  /\ memfs_load w' 256 5 = "hello"%string
  /\ sys_pread (to_int (fh fi)) 256 5 0 wc = (-1, set_errno EBADF wc)
  /\ mirror_read "/d/g" 256 5 0 fi wc = ((0, fi), set_errno EBADF wc).
Proof.
  intros fi w w' wc.
  assert (Hcall : sys_pread (to_int (fh fi)) 256 5 0 w = (5, w'))
    by (vm_compute; reflexivity).
  assert (Hfail : sys_pread (to_int (fh fi)) 256 5 0 wc = (-1, set_errno EBADF wc))
    by (vm_compute; reflexivity).
  repeat apply conj; try assumption.
  - destruct (mirror_read_result "/d/f" 256 5 0 fi w 5 w' Hcall) as (_ & _ & Hcount & _).
    apply Hcount. unfold INT_MAX. lia.
  - vm_compute. reflexivity.
  - destruct (mirror_read_result "/d/g" 256 5 0 fi wc (-1) _ Hfail) as (Herr & _).
    now apply Herr.
Defined.

Lemma mirror_release_discards_close_witness :
  let fi := mk_fi O_RDONLY 7 in
  sys_close (to_int (fh fi)) world0 = (-1, set_errno EBADF world0)
  /\ mirror_release "/d/f" fi world0 = ((0, fi), set_errno EBADF world0).
Proof.
  intros fi.
  assert (Hcall : sys_close (to_int (fh fi)) world0 = (-1, set_errno EBADF world0))
    by (vm_compute; reflexivity).
  split; [exact Hcall|].
  exact (proj1 (mirror_release_discards_close "/d/f" fi world0 (-1) _ Hcall)).
Defined.

Lemma mirror_write_result_witness :
  let fi := mk_fi O_WRONLY 3 in
  let wc := snd (mirror_create "/d/g" 420 (mk_fi O_WRONLY 0) world0) in
  let w' := snd (sys_pwrite 3 "hey" 3 2 wc) in
  let wr := snd (mirror_open "/d/f" (mk_fi O_RDONLY 0) world0) in
  sys_pwrite (to_int (fh fi)) "hey" 3 2 wc = (3, w')
  /\ mirror_write "/d/g" "hey" 3 2 fi wc = ((3, fi), w')
  /\ sys_pwrite (to_int (fh fi)) "hey" 3 2 wr = (-1, set_errno EBADF wr)
  /\ mirror_write "/d/f" "hey" 3 2 fi wr = ((- EBADF, fi), set_errno EBADF wr).
Proof.
  intros fi wc w' wr.
  assert (Hcall : sys_pwrite (to_int (fh fi)) "hey" 3 2 wc = (3, w'))
    by (vm_compute; reflexivity).
  assert (Hfail : sys_pwrite (to_int (fh fi)) "hey" 3 2 wr = (-1, set_errno EBADF wr))
    by (vm_compute; reflexivity).
  repeat apply conj; try assumption.
  - destruct (mirror_write_result "/d/g" "hey" 3 2 fi wc 3 w' Hcall) as (_ & Hcount & _).
    apply Hcount. unfold INT_MAX. lia.
  - destruct (mirror_write_result "/d/f" "hey" 3 2 fi wr (-1) _ Hfail) as (Herr & _).
    now apply Herr.
Defined.

Lemma dispatch_session_frame_witness :
  let fi := mk_fi O_RDONLY 3 in
  opens_session (B := list string) (Unlink "/d/f") = false
  /\ session (fst (dispatch (B := list string) mirror_oper 0 (Unlink "/d/f") fi world0)) = fi
  /\ session (fst (dispatch (B := list string) mirror_oper 0 (Read "/d/f" 256 5 0) fi world0)) = fi.
Proof.
  intros fi. split; [reflexivity|]. split.
  - exact (proj1 (dispatch_session_frame (list string) 0%nat (Unlink "/d/f") fi world0)
             eq_refl).
  - exact (proj1 (dispatch_session_frame (list string) 0%nat (Read "/d/f" 256 5 0) fi world0)
             eq_refl).
Defined.

(** A cookie of a stream given entry by entry: the entry at [i] carries it
    and no other entry does. *)
Ltac cookie_of_entry i :=
  right; split; [discriminate|];
  eexists i, _; split; [reflexivity|]; split; [reflexivity|]; split; [reflexivity|];
  let j := fresh "j" in
  let e := fresh "e" in
  let Hj := fresh "Hj" in
  let Hoff := fresh "Hoff" in
  intros j e Hj Hoff;
  do 4 (destruct j as [|j];
        [cbn in Hj; injection Hj as <-;
         first [reflexivity | (cbn in Hoff; discriminate Hoff)]|]);
  cbn in Hj; discriminate Hj.

Lemma mirror_readdir_walks_stream_witness :
  let opened := mirror_opendir "/d" (mk_fi O_RDONLY 0) world0 in
  let fi := snd (fst opened) in
  let w := snd opened in
  let es := [mk_dirent "." 1; mk_dirent ".." 4; mk_dirent "g" 3;
             mk_dirent "f" 2147483647]%string in
  memfs_dir_view w (fh fi) = Some (es, 0%nat)
  /\ (List.length es < 10)%nat
  /\ resumes_at es 4 2
  /\ fst (mirror_readdir 10 "/d" [] (bounded_filler 8) 0 fi w)
     = (Some (0, ["."; ".."; "g"; "f"]%string), fi)
  /\ fst (mirror_readdir 10 "/d" [] (bounded_filler 3) 0 fi w)
     = (Some (0, ["."; ".."; "g"]%string), fi)
  /\ fst (mirror_readdir 10 "/d" [] (bounded_filler 8) 4 fi w)
     = (Some (0, ["g"; "f"]%string), fi)
  /\ sys_opendir "/d" world0 = (fh fi, w)
  /\ memfs_dir_names world0 "/d" = Some ["."; ".."; "g"; "f"]%string
  /\ exists count,
       fst (mirror_readdir 10 "/d" (O, []) (traced (fun b _ _ _ => (0, S b))) 0 fi w)
       = (Some (0, (count, ["."; ".."; "g"; "f"]%string)), fi).
Proof.
  intros opened fi w es.
  assert (Hview : memfs_dir_view w (fh fi) = Some (es, 0%nat)) by (vm_compute; reflexivity).
  assert (Hfuel : (List.length es < 10)%nat) by (cbn; lia).
  assert (Hcookie : resumes_at es 4 2) by (cookie_of_entry 1%nat).
  assert (Hcall : sys_opendir "/d" world0 = (fh fi, w)) by (vm_compute; reflexivity).
  assert (Hnames : memfs_dir_names world0 "/d" = Some ["."; ".."; "g"; "f"]%string)
    by (vm_compute; reflexivity).
  destruct (mirror_readdir_walks_stream memfs_dir_view memfs_dir_names
              memfs_dir_stream_contract memfs_opendir_contract) as [Hwalk Hlist].
  refine (conj Hview (conj Hfuel (conj Hcookie (conj _ (conj _ (conj _
            (conj Hcall (conj Hnames _)))))))).
  - destruct (Hwalk (list string) (bounded_filler 8) 10%nat "/d"%string [] 0 fi w es O
                Hview Hfuel) as (start & _ & Hzero & [w' Hrun] & _).
    rewrite (Hzero eq_refl) in Hrun. rewrite Hrun. reflexivity.
  - destruct (Hwalk (list string) (bounded_filler 3) 10%nat "/d"%string [] 0 fi w es O
                Hview Hfuel) as (start & _ & Hzero & [w' Hrun] & _).
    rewrite (Hzero eq_refl) in Hrun. rewrite Hrun. reflexivity.
  - destruct (Hwalk (list string) (bounded_filler 8) 10%nat "/d"%string [] 4 fi w es O
                Hview Hfuel) as (start & Hstart & _ & [w' Hrun] & _).
    rewrite (Hstart 2%nat Hcookie) in Hrun. rewrite Hrun. reflexivity.
  - destruct (Hlist nat (fun b _ _ _ => (0, S b)) "/d"%string world0 (fh fi) w
                ["."; ".."; "g"; "f"]%string fi Hcall ltac:(discriminate) eq_refl Hnames
                ltac:(reflexivity) 10%nat O ltac:(cbn; lia)) as (count & w2 & Hrun).
    exists count. rewrite Hrun. reflexivity.
Defined.

(** C6 as stated fails: the link "/l" holds "abc" and the buffer has room
    for two bytes; [readlink] returns 0, not a negated error code, and the
    buffer holds "ab". *)
Lemma mirror_readlink_short_buffer_is_no_error :
  memfs_symlink_target world0 "/l" = Some "abc"%string
  /\ 2 < Z.of_nat (String.length "abc")
  /\ fst (mirror_readlink "/l" 512 2 world0) = 0
  /\ ~ fst (mirror_readlink "/l" 512 2 world0) < 0
  /\ memfs_load (snd (mirror_readlink "/l" 512 2 world0)) 512 2 = "ab"%string.
Proof.
  repeat apply conj; try (vm_compute; reflexivity).
  vm_compute. discriminate.
Qed.

Lemma mirror_readlink_truncates_witness :
  let w' := snd (sys_readlink "/l" 512 4 world0) in
  sys_readlink "/l" 512 4 world0 = (3, w')
  /\ mirror_readlink "/l" 512 4 world0 = (0, w')
  /\ memfs_load w' 512 3 = "abc"%string
  /\ mirror_readlink "/d/f" 512 4 world0 = (- EINVAL, set_errno EINVAL world0).
Proof.
  intros w'.
  assert (Hcall : sys_readlink "/l" 512 4 world0 = (3, w')) by (vm_compute; reflexivity).
  assert (Hfail : sys_readlink "/d/f" 512 4 world0 = (-1, set_errno EINVAL world0))
    by (vm_compute; reflexivity).
  split; [exact Hcall|].
  destruct (mirror_readlink_truncates memfs_symlink_target memfs_load
              memfs_readlink_contract "/l" 512 4 world0 3 w' Hcall) as (Hok & _ & _).
  destruct Hok as [Hzero _]; [lia|].
  destruct (mirror_readlink_truncates memfs_symlink_target memfs_load
              memfs_readlink_contract "/d/f" 512 4 world0 (-1) _ Hfail) as (_ & _ & Hnolink).
  repeat apply conj.
  - exact Hzero.
  - vm_compute. reflexivity.
  - now apply Hnolink.
Defined.

Lemma mirror_utimens_by_path_witness :
  let tv := (mk_timespec 1700000100 500000000, mk_timespec 1700000200 7) in
  let w' := snd (sys_utimensat 99 "/d/f" tv 0 world0) in
  is_absolute "/d/f" = true
  /\ sys_utimensat 99 "/d/f" tv 0 world0 = (0, w')
  /\ mirror_utimens "/d/f" tv world0 = (0, w')
  /\ memfs_file_times w' "/d/f" = Some tv.
Proof.
  intros tv w'.
  assert (Hcall : sys_utimensat 99 "/d/f" tv 0 world0 = (0, w')) by (vm_compute; reflexivity).
  destruct (mirror_utimens_by_path memfs_file_times memfs_utimensat_contract
              "/d/f" tv world0 99 0 w' eq_refl Hcall) as (Hok & _ & Htimes).
  repeat apply conj.
  - reflexivity.
  - exact Hcall.
  - now apply Hok.
  - apply Htimes; [reflexivity | | ]; unfold ordinary_nsec; cbn; lia.
Defined.

Lemma mirror_create_truncates_write_only_witness :
  let fi := mk_fi O_WRONLY 0 in
  let w' := snd (sys_open "/d/f" (Z.lor O_CREAT (Z.lor O_WRONLY O_TRUNC)) (Some 420) world0) in
  memfs_file_size world0 "/d/f" = Some 5
  /\ sys_open "/d/f" (Z.lor O_CREAT (Z.lor O_WRONLY O_TRUNC)) (Some 420) world0 = (3, w')
  /\ mirror_create "/d/f" 420 fi world0 = ((0, set_fh fi 3), w')
  /\ memfs_fd_mode w' 3 = Some O_WRONLY
  /\ memfs_file_size w' "/d/f" = Some 0.
Proof.
  intros fi w'.
  assert (Hcall : sys_open "/d/f" (Z.lor O_CREAT (Z.lor O_WRONLY O_TRUNC)) (Some 420) world0
                  = (3, w')) by (vm_compute; reflexivity).
  destruct (mirror_create_truncates_write_only memfs_file_size memfs_fd_mode
              memfs_creat_contract "/d/f" 420 fi world0 3 w' Hcall) as (_ & Hok).
  destruct Hok as (Hrun & _ & Hmode & Hsize); [lia|].
  repeat apply conj.
  - reflexivity.
  - exact Hcall.
  - exact Hrun.
  - exact Hmode.
  - apply Hsize. now exists 5.
Defined.

(** * Further properties of the handlers *)

(** ** Handle-based handlers *)

Section HandleForwarding.

Context {world : Type} `{K : Libc world}.

Lemma forwards_by_handle_intro (fi : fuse_file_info) (call : M world Z) :
  forwards_by_handle fi call
    (r <- call ;; if r =? -1 then e <- neg_errno ;; ret (e, fi) else ret (0, fi)).
Proof.
  intros w r w' Hcall. rewrite (bind_run _ _ _ _ _ Hcall). split; intros Hr.
  - apply Z.eqb_neq in Hr. now rewrite Hr.
  - subst r. reflexivity.
Qed.

(** X1: [fgetattr], [ftruncate], [releasedir], [fallocate], [lock],
    [flock] and [ioctl] make their call on what the handle slot holds (the
    descriptor read back as an [int]; the stream pointer for [releasedir]),
    return 0 when it succeeds and [-errno] when it answers [-1], and hand the
    session record back as it was. *)
Theorem handle_operations_forward_errno :
  forall fi,
    (forall path stbuf,
        forwards_by_handle fi (sys_fstat (to_int (fh fi)) stbuf)
          (mirror_fgetattr path stbuf fi))
    /\ (forall path length,
        forwards_by_handle fi (sys_ftruncate (to_int (fh fi)) length)
          (mirror_ftruncate path length fi))
    /\ (forall path,
        forwards_by_handle fi (sys_closedir (fh fi)) (mirror_releasedir path fi))
    /\ (forall path mode offset len,
        forwards_by_handle fi (sys_fallocate (to_int (fh fi)) mode offset len)
          (mirror_fallocate path mode offset len fi))
    /\ (forall path cmd lck,
        forwards_by_handle fi (sys_fcntl (to_int (fh fi)) cmd lck)
          (mirror_lock path fi cmd lck))
    /\ (forall path op,
        forwards_by_handle fi (sys_flock (to_int (fh fi)) op) (mirror_flock path fi op))
    /\ (forall path request arg flags data,
        forwards_by_handle fi (sys_ioctl (to_int (fh fi)) (to_uint64 request) arg)
          (mirror_ioctl path request arg fi flags data)).
Proof.
  intros fi. repeat apply conj; intros; apply forwards_by_handle_intro.
Qed.

(** X3: [fsync] calls [fdatasync] when [datasync] is not zero and [fsync]
    when it is zero, never both, and follows the result convention. *)
Theorem mirror_fsync_selects_call :
  forall path datasync fi,
    (datasync <> 0 ->
     forwards_by_handle fi (sys_fdatasync (to_int (fh fi))) (mirror_fsync path datasync fi))
    /\ (datasync = 0 ->
        forwards_by_handle fi (sys_fsync (to_int (fh fi))) (mirror_fsync path datasync fi)).
Proof.
  intros path datasync fi. split; intros Hd.
  - apply Z.eqb_neq in Hd. unfold mirror_fsync. rewrite Hd. cbn [negb].
    apply forwards_by_handle_intro.
  - subst datasync. apply forwards_by_handle_intro.
Qed.

Lemma forwards_size_intro (call : M world Z) :
  forwards_size call (n <- call ;; if n =? -1 then neg_errno else ret (to_int n)).
Proof.
  intros w n w' Hcall. rewrite (bind_run _ _ _ _ _ Hcall).
  assert (Hok : n <> -1 -> (if n =? -1 then neg_errno else ret (to_int n)) w'
                           = (to_int n, w')).
  { intros Hn. apply Z.eqb_neq in Hn. now rewrite Hn. }
  repeat apply conj.
  - now intros ->.
  - exact Hok.
  - intros Hn. rewrite Hok by lia. rewrite to_int_id; [reflexivity|].
    unfold is_int, INT_MIN. lia.
Qed.

(** X4: [getxattr] and [listxattr] return what their call answers (the size
    of the value or of the list, also for a probe with size 0) when it fits
    an [int], and [-errno] when the call answers [-1]. *)
Theorem xattr_sizes_forwarded :
  (forall path name value size,
      forwards_size (sys_getxattr path name value size)
        (mirror_getxattr path name value size))
  /\ (forall path lst size,
      forwards_size (sys_listxattr path lst size) (mirror_listxattr path lst size)).
Proof. split; intros; apply forwards_size_intro. Qed.

(** X2: a handle-based request that does not start a session never looks at
    its path: the reply and the [world] it leaves are the same under any
    path, which is what [flag_nopath = 1] in the table tells FUSE. *)
Theorem handle_requests_ignore_path :
  flag_nopath (mirror_oper (K := K)) = 1
  /\ forall (B : Type) fuel (rq : request B) p fi w,
       takes_handle rq = true -> opens_session rq = false ->
       dispatch mirror_oper fuel (with_path p rq) fi w = dispatch mirror_oper fuel rq fi w.
Proof.
  split; [reflexivity|].
  intros B fuel rq p fi w Hhandle Hopen.
  destruct rq; try discriminate Hhandle; try discriminate Hopen; reflexivity.
Qed.

(** X6: what [open] returns for each answer of the call: [-errno] and an
    all-ones handle when it fails; 0 for descriptor 0; [-errno], whatever
    errno holds, for any other descriptor, which is stored all the same.  So
    the result is 0 exactly when the descriptor is 0 or errno is 0. *)
Theorem mirror_open_outcomes :
  forall path fi w fd w',
    sys_open path (flags fi) None w = (fd, w') ->
    -1 <= fd <= INT_MAX ->
    (fd = -1 ->
     mirror_open path fi w = ((- errno w', set_fh fi 18446744073709551615), w'))
    /\ (fd = 0 -> mirror_open path fi w = ((0, set_fh fi 0), w'))
    /\ (0 < fd -> mirror_open path fi w = ((- errno w', set_fh fi fd), w'))
    /\ (fst (fst (mirror_open path fi w)) = 0 <-> fd = 0 \/ errno w' = 0).
Proof.
  intros path fi w fd w' Hcall Hfd. unfold INT_MAX in Hfd.
  rewrite (mirror_open_result path fi w fd w' Hcall).
  refine (conj _ (conj _ (conj _ _))).
  - intros ->. reflexivity.
  - intros ->. reflexivity.
  - intros Hpos. rewrite to_uint64_id by lia.
    destruct (Z.eqb_spec fd 0); [lia | reflexivity].
  - cbn [fst]. destruct (Z.eq_dec fd (-1)) as [-> | Hne].
    + change (to_uint64 (-1) =? 0) with false. cbv iota. lia.
    + rewrite to_uint64_id by lia. destruct (Z.eqb_spec fd 0); lia.
Qed.

(** X5: a call that fails leaves the handle slot alone in [opendir], but
    not in [open] and [create]: they store the [-1] of the failed call, which
    the slot holds as all ones and which reads back as descriptor [-1]. *)
Theorem failed_open_and_the_handle_slot :
  forall path mode fi w,
    (fst (sys_opendir path w) = NULL -> snd (fst (mirror_opendir path fi w)) = fi)
    /\ (fst (sys_open path (flags fi) None w) = -1 ->
        fh (snd (fst (mirror_open path fi w))) = 18446744073709551615
        /\ to_int (fh (snd (fst (mirror_open path fi w)))) = -1)
    /\ (fst (sys_creat path mode w) = -1 ->
        fh (snd (fst (mirror_create path mode fi w))) = 18446744073709551615
        /\ to_int (fh (snd (fst (mirror_create path mode fi w)))) = -1).
Proof.
  intros path mode fi w. repeat apply conj.
  - unfold mirror_opendir, bind. destruct (sys_opendir path w) as [dir w']. cbn [fst].
    intros ->. reflexivity.
  - unfold mirror_open, bind. destruct (sys_open path (flags fi) None w) as [fd w'].
    cbn [fst]. intros ->. split; reflexivity.
  - unfold mirror_create, bind. destruct (sys_creat path mode w) as [fd w'].
    cbn [fst]. intros ->. split; reflexivity.
Qed.

(** What [mirror_create] returns, whatever [creat] answers within an [int]. *)
Lemma mirror_create_result path mode fi w fd w' :
  sys_creat path mode w = (fd, w') -> is_int fd ->
  mirror_create path mode fi w
  = ((if fd =? -1 then - errno w' else 0, set_fh fi (to_uint64 fd)), w').
Proof.
  intros Hcall Hfd. unfold mirror_create. rewrite (bind_run _ _ _ _ _ Hcall).
  cbn [fh set_fh].
  assert (Heq : (to_uint64 fd =? to_uint64 (-1)) = (fd =? -1)).
  { destruct (Z.eqb_spec fd (-1)) as [-> | Hne]; [apply Z.eqb_refl|].
    apply Z.eqb_neq. intros Heq. apply Hne.
    rewrite <- (to_int_to_uint64 fd Hfd), Heq. reflexivity. }
  rewrite Heq. now destruct (fd =? -1).
Qed.

(** X12: a descriptor survives the 64-bit handle slot.  [open] and
    [create] store the descriptor [fd] they are answered so that the
    session's [fsync], [write], [read] and [release] make their calls on
    [fd] itself: [write] returns the count or [-errno], [read] the count or
    0, [release] 0. *)
Theorem file_session_uses_descriptor :
  forall fi fd,
    is_int fd ->
    let fi' := set_fh fi (to_uint64 fd) in
    (forall path w w',
        sys_open path (flags fi) None w = (fd, w') ->
        snd (fst (mirror_open path fi w)) = fi')
    /\ (forall path mode w w',
        sys_creat path mode w = (fd, w') -> fd <> -1 ->
        mirror_create path mode fi w = ((0, fi'), w'))
    /\ (forall p, forwards_by_handle fi' (sys_fsync fd) (mirror_fsync p 0 fi'))
    /\ (forall p buf size offset w1 n w2,
           sys_pwrite fd buf size offset w1 = (n, w2) ->
           mirror_write p buf size offset fi' w1
           = ((if n =? -1 then - errno w2 else to_int n, fi'), w2))
    /\ (forall p buf size offset w1 n w2,
           sys_pread fd buf size offset w1 = (n, w2) ->
           mirror_read p buf size offset fi' w1
           = ((if n =? -1 then 0 else to_int n, fi'), w2))
    /\ (forall p w1, mirror_release p fi' w1 = ((0, fi'), snd (sys_close fd w1))).
Proof.
  intros fi fd Hfd fi'.
  assert (Hback : to_int (fh fi') = fd) by (cbn; now apply to_int_to_uint64).
  repeat apply conj.
  - intros path w w' Hcall. now rewrite (mirror_open_result path fi w fd w' Hcall).
  - intros path mode w w' Hcall Hne.
    rewrite (mirror_create_result path mode fi w fd w' Hcall Hfd).
    apply Z.eqb_neq in Hne. now rewrite Hne.
  - intros p. rewrite <- Hback. apply forwards_by_handle_intro.
  - intros p buf size offset w1 n w2 Hw. unfold mirror_write. rewrite Hback.
    rewrite (bind_run _ _ _ _ _ Hw). now destruct (n =? -1).
  - intros p buf size offset w1 n w2 Hr. unfold mirror_read. rewrite Hback.
    rewrite (bind_run _ _ _ _ _ Hr). now destruct (n =? -1).
  - intros p w1. unfold mirror_release, bind. rewrite Hback.
    now destruct (sys_close fd w1).
Qed.

End HandleForwarding.

(** ** Directory sessions *)

Section DirectorySessions.

Context {world : Type} `{K : Libc world}.
Variable dir_view : world -> ptr -> option (list dirent * nat).

(** The loop leaves the stream open, with the entries it had. *)
Lemma readdir_loop_stream {B : Type} (filler : fuse_fill_dir_t B) :
  dir_stream_contract dir_view ->
  forall fuel dir es pos buf w,
    dir_view w dir = Some (es, pos) ->
    (List.length es - pos < fuel)%nat ->
    exists w' pos',
      readdir_loop fuel dir filler buf w = (Some (emit filler (drop pos es) buf), w')
      /\ dir_view w' dir = Some (es, pos').
Proof.
  intros [_ Hread]. induction fuel as [|fuel IH]; intros dir es pos buf w Hview Hfuel.
  - lia.
  - cbn [readdir_loop]. unfold bind.
    destruct (Hread dir w es pos Hview) as [Hentry Hview'].
    destruct (sys_readdir dir w) as [entry w1]. cbn [fst snd] in Hentry, Hview'.
    subst entry. destruct (es !! pos) as [e|] eqn:He.
    + rewrite (drop_S _ _ _ He). cbn [emit].
      destruct (filler buf (d_name e) NULL (d_off e)) as [full buf'].
      destruct (full =? 0).
      * apply IH; [exact Hview'|]. apply lookup_lt_Some in He. lia.
      * now exists w1, (S pos).
    + apply lookup_ge_None in He. rewrite drop_ge by exact He. now exists w1, pos.
Qed.

Lemma mirror_readdir_stream {B : Type} (filler : fuse_fill_dir_t B) :
  dir_stream_contract dir_view ->
  forall fuel path buf offset fi w es pos,
    dir_view w (fh fi) = Some (es, pos) ->
    (List.length es < fuel)%nat ->
    exists start w' pos',
      (forall p, resumes_at es offset p -> start = p)
      /\ mirror_readdir fuel path buf filler offset fi w
         = ((Some (0, emit filler (drop start es) buf), fi), w')
      /\ dir_view w' (fh fi) = Some (es, pos').
Proof.
  intros Hstream fuel path buf offset fi w es pos Hview Hfuel.
  destruct (proj1 Hstream (fh fi) offset w es pos Hview) as (start & Hseek & Hstart).
  unfold mirror_readdir, bind.
  destruct (sys_seekdir (fh fi) offset w) as [[] w1]. cbn [snd] in Hseek.
  destruct (readdir_loop_stream filler Hstream fuel (fh fi) es start buf w1 Hseek)
    as (w2 & pos2 & Hloop & Hview2); [lia|].
  rewrite Hloop. now exists start, w2, pos2.
Qed.

(** X7: [readdir] can be called again on the same handle: wherever an
    earlier call stopped, a later call walks the same entries from the
    position its own offset names (the start for 0, the entry after the one
    whose [d_off] it is), so a listing can be resumed or repeated. *)
Theorem mirror_readdir_repeatable :
  dir_stream_contract dir_view ->
  forall (B1 B2 : Type) (filler1 : fuse_fill_dir_t B1) (filler2 : fuse_fill_dir_t B2)
         fuel path buf1 buf2 offset1 offset2 p1 p2 fi w es pos,
    dir_view w (fh fi) = Some (es, pos) ->
    (List.length es < fuel)%nat ->
    resumes_at es offset1 p1 ->
    resumes_at es offset2 p2 ->
    exists w1 w2,
      mirror_readdir fuel path buf1 filler1 offset1 fi w
      = ((Some (0, emit filler1 (drop p1 es) buf1), fi), w1)
      /\ mirror_readdir fuel path buf2 filler2 offset2 fi w1
         = ((Some (0, emit filler2 (drop p2 es) buf2), fi), w2).
Proof.
  intros Hstream B1 B2 filler1 filler2 fuel path buf1 buf2 offset1 offset2 p1 p2 fi w es pos
    Hview Hfuel Hp1 Hp2.
  destruct (mirror_readdir_stream filler1 Hstream fuel path buf1 offset1 fi w es pos
              Hview Hfuel) as (s1 & w1 & pos1 & Hs1 & Hrun1 & Hview1).
  destruct (mirror_readdir_stream filler2 Hstream fuel path buf2 offset2 fi w1 es pos1
              Hview1 Hfuel) as (s2 & w2 & pos2 & Hs2 & Hrun2 & _).
  rewrite (Hs1 p1 Hp1) in Hrun1. rewrite (Hs2 p2 Hp2) in Hrun2.
  now exists w1, w2.
Qed.

(** X10: with the cookie of the end of the stream as offset (the [d_off] of
    its last entry, or 0 when it has no entry), [readdir] never calls the
    callback: it returns 0 and the buffer as it was given. *)
Theorem mirror_readdir_past_end :
  dir_stream_contract dir_view ->
  forall (B : Type) (filler : fuse_fill_dir_t B) fuel path buf offset fi w es pos,
    dir_view w (fh fi) = Some (es, pos) ->
    (List.length es < fuel)%nat ->
    resumes_at es offset (List.length es) ->
    exists w', mirror_readdir fuel path buf filler offset fi w = ((Some (0, buf), fi), w').
Proof.
  intros Hstream B filler fuel path buf offset fi w es pos Hview Hfuel Hend.
  destruct (mirror_readdir_stream filler Hstream fuel path buf offset fi w es pos
              Hview Hfuel) as (start & w1 & pos1 & Hstart & Hrun & _).
  rewrite (Hstart _ Hend), drop_ge in Hrun by lia. now exists w1.
Qed.

(** X8: a directory session.  [opendir] that succeeds stores the stream in
    the handle slot and returns 0; [readdir] from offset 0 on that handle,
    with a callback that has room, then offers the names of the directory,
    all of them and in order; [releasedir] calls [closedir] on the stream. *)
Theorem directory_session_lists_directory :
  forall dir_names,
    opendir_contract dir_view dir_names ->
    dir_stream_contract dir_view ->
    forall (B : Type) (filler : fuse_fill_dir_t B) path fi w dir w1,
      sys_opendir path w = (dir, w1) ->
      dir <> NULL -> 0 <= dir < 18446744073709551616 ->
      (forall b name off, fst (filler b name NULL off) = 0) ->
      let fi1 := set_fh fi dir in
      exists names,
        dir_names w path = Some names
        /\ mirror_opendir path fi w = ((0, fi1), w1)
        /\ (forall fuel buf,
               (List.length names < fuel)%nat ->
               exists buf' w2,
                 mirror_readdir fuel path (buf, []) (traced filler) 0 fi1 w1
                 = ((Some (0, (buf', names)), fi1), w2))
        /\ forwards_by_handle fi1 (sys_closedir dir) (mirror_releasedir path fi1).
Proof.
  intros dir_names Hopen Hstream B filler path fi w dir w1 Hcall Hdir Hptr Hroom fi1.
  destruct (Hopen path w dir w1 Hcall Hdir) as (es & Hview & Hnames).
  exists (List.map d_name es). repeat apply conj.
  - exact Hnames.
  - unfold mirror_opendir. rewrite (bind_run _ _ _ _ _ Hcall).
    apply Z.eqb_neq in Hdir. rewrite Hdir. now rewrite to_uint64_id.
  - intros fuel buf Hfuel. rewrite length_map in Hfuel.
    destruct (mirror_readdir_stream (traced filler) Hstream fuel path (buf, []) 0 fi1 w1
                es 0 Hview Hfuel) as (start & w2 & pos2 & Hstart & Hrun & _).
    assert (start = O) as -> by (apply Hstart; now left).
    change (drop 0 es) with es in Hrun.
    rewrite emit_traced, (visited_all filler es buf Hroom) in Hrun.
    now exists (emit filler es buf), w2.
  - apply forwards_by_handle_intro.
Qed.

(** X11: the loop of [readdir] has no bound of its own: on a stream that
    never reports its end, with a callback that never reports the buffer
    full, the handler is still running however many steps it is given. *)
Theorem mirror_readdir_needs_end_of_stream :
  forall (B : Type) (filler : fuse_fill_dir_t B) fi,
    (forall w, fst (sys_readdir (fh fi) w) <> None) ->
    (forall b name off, fst (filler b name NULL off) = 0) ->
    forall fuel path buf offset w,
      fst (fst (mirror_readdir fuel path buf filler offset fi w)) = None.
Proof.
  intros B filler fi Hendless Hroom fuel path buf offset w.
  assert (Hloop : forall n b v, fst (readdir_loop n (fh fi) filler b v) = None).
  { induction n as [|n IH]; intros b v; [reflexivity|].
    cbn [readdir_loop]. unfold bind.
    specialize (Hendless v). destruct (sys_readdir (fh fi) v) as [[e|] v1];
      [|now cbn in Hendless].
    specialize (Hroom b (d_name e) (d_off e)).
    destruct (filler b (d_name e) NULL (d_off e)) as [full b']. cbn in Hroom.
    subst full. cbn. apply IH. }
  unfold mirror_readdir, bind.
  destruct (sys_seekdir (fh fi) offset w) as [[] w1].
  specialize (Hloop fuel buf w1).
  destruct (readdir_loop fuel (fh fi) filler buf w1) as [[b|] w2]; [discriminate Hloop|].
  reflexivity.
Qed.

End DirectorySessions.

Section FileSessions.

Context {world : Type} `{K : Libc world}.

(** X9: a handle made by [create] is open for writing only, so a [read]
    through it fails in the kernel, and the handler reports that as 0 bytes
    and no error. *)
Theorem read_after_create_returns_zero :
  forall file_size fd_mode,
    creat_contract file_size fd_mode ->
    pread_mode_contract fd_mode ->
    forall path mode fi w fd w',
      sys_creat path mode w = (fd, w') -> fd <> -1 ->
      mirror_create path mode fi w = ((0, set_fh fi fd), w')
      /\ forall p buf size offset,
           fst (mirror_read p buf size offset (set_fh fi fd) w') = (0, set_fh fi fd).
Proof.
  intros file_size fd_mode (Hcreat & Hrange & Hmode & _) Hpread path mode fi w fd w' Hcall Hne.
  pose proof Hcall as Hopen. rewrite Hcreat in Hopen.
  pose proof (Hrange _ _ _ _ _ _ Hopen) as Hfd.
  assert (Hint : is_int fd) by (unfold is_int, INT_MIN; lia).
  assert (Hu : to_uint64 fd = fd) by (apply to_uint64_id; unfold INT_MAX in Hfd; lia).
  split.
  - rewrite (mirror_create_result path mode fi w fd w' Hcall Hint), Hu.
    apply Z.eqb_neq in Hne. now rewrite Hne.
  - intros p buf size offset. unfold mirror_read, bind. cbn [fh set_fh].
    rewrite (to_int_id fd Hint).
    pose proof (Hpread fd buf size offset w' (Hmode _ _ _ _ _ _ Hopen Hne)) as Hfail.
    destruct (sys_pread fd buf size offset w') as [n w2]. cbn [fst] in Hfail.
    subst n. reflexivity.
Qed.

End FileSessions.

(** ** The reference kernel meets the further contracts *)

Lemma memfs_pread_mode_contract :
  pread_mode_contract (K := memfs_libc) memfs_fd_mode.
Proof.
  intros fd buf size offset w Hmode. cbn. unfold memfs_pread, memfs_fd_mode in *.
  destruct (m_fds w !! fd) as [[p acc]|]; [|discriminate Hmode].
  cbn in Hmode. simplify_eq. reflexivity.
Qed.

(** ** Further runs on the reference kernel *)

Lemma handle_operations_forward_errno_witness :
  let w := snd (mirror_open "/d/f" (mk_fi O_RDWR 0) world0) in
  mirror_fgetattr "/d/f" 512 (mk_fi O_RDWR 3) w = ((0, mk_fi O_RDWR 3), w)
  /\ mirror_ftruncate "/d/f" 2 (mk_fi O_RDWR 7) w = ((- EBADF, mk_fi O_RDWR 7), set_errno EBADF w)
  /\ mirror_flock "/d/f" (mk_fi O_RDWR 3) 2 w = ((- ENOSYS, mk_fi O_RDWR 3), set_errno ENOSYS w).
Proof.
  intros w.
  destruct (handle_operations_forward_errno (K := memfs_libc) (mk_fi O_RDWR 3))
    as (Hfgetattr & _ & _ & _ & _ & Hflock & _).
  destruct (handle_operations_forward_errno (K := memfs_libc) (mk_fi O_RDWR 7))
    as (_ & Hftruncate & _).
  repeat apply conj.
  - assert (Hcall : sys_fstat (to_int 3) 512 w = (0, w)) by (vm_compute; reflexivity).
    apply (proj1 (Hfgetattr "/d/f"%string 512 w 0 w Hcall)). lia.
  - assert (Hcall : sys_ftruncate (to_int 7) 2 w = (-1, set_errno EBADF w))
      by (vm_compute; reflexivity).
    exact (proj2 (Hftruncate "/d/f"%string 2 w (-1) _ Hcall) eq_refl).
  - assert (Hcall : sys_flock (to_int 3) 2 w = (-1, set_errno ENOSYS w)) by reflexivity.
    exact (proj2 (Hflock "/d/f"%string 2 w (-1) _ Hcall) eq_refl).
Defined.

Lemma handle_requests_ignore_path_witness :
  takes_handle (B := list string) (Read "/d/f" 256 5 0) = true
  /\ opens_session (B := list string) (Read "/d/f" 256 5 0) = false
  /\ dispatch (B := list string) mirror_oper 0 (Read "/elsewhere" 256 5 0) (mk_fi O_RDONLY 3) world0
     = dispatch mirror_oper 0 (Read "/d/f" 256 5 0) (mk_fi O_RDONLY 3) world0.
Proof.
  split; [reflexivity|]. split; [reflexivity|].
  exact (proj2 (handle_requests_ignore_path (K := memfs_libc)) (list string) 0%nat
           (Read "/d/f" 256 5 0) "/elsewhere"%string (mk_fi O_RDONLY 3) world0 eq_refl eq_refl).
Defined.

Lemma mirror_fsync_selects_call_witness :
  let w := snd (mirror_open "/d/f" (mk_fi O_RDWR 0) world0) in
  1 <> 0
  /\ sys_fdatasync 3 w = (0, w)
  /\ mirror_fsync "/d/f" 1 (mk_fi O_RDWR 3) w = ((0, mk_fi O_RDWR 3), w)
  /\ mirror_fsync "/d/f" 0 (mk_fi O_RDWR 7) w = ((- EBADF, mk_fi O_RDWR 7), set_errno EBADF w).
Proof.
  intros w.
  assert (Hcall : sys_fdatasync 3 w = (0, w)) by (vm_compute; reflexivity).
  repeat apply conj.
  - lia.
  - exact Hcall.
  - destruct (mirror_fsync_selects_call (K := memfs_libc) "/d/f" 1 (mk_fi O_RDWR 3))
      as [Hdata _].
    apply (proj1 (Hdata ltac:(lia) w 0 w Hcall)). lia.
  - destruct (mirror_fsync_selects_call (K := memfs_libc) "/d/f" 0 (mk_fi O_RDWR 7))
      as [_ Hfull].
    assert (Hbad : sys_fsync (to_int 7) w = (-1, set_errno EBADF w))
      by (vm_compute; reflexivity).
    exact (proj2 (Hfull eq_refl w (-1) _ Hbad) eq_refl).
Defined.

Lemma xattr_sizes_forwarded_witness :
  let w := snd (mirror_setxattr "/d/f" "user.tag" "blue" 4 0 world0) in
  let w' := snd (sys_getxattr "/d/f" "user.tag" 256 8 w) in
  sys_getxattr "/d/f" "user.tag" 256 8 w = (4, w')
  /\ mirror_getxattr "/d/f" "user.tag" 256 8 w = (4, w')
  /\ memfs_load w' 256 4 = "blue"%string
  /\ mirror_getxattr "/d/f" "user.tag" 256 0 w = (4, w)
  /\ mirror_listxattr "/d/f" 512 0 w = (9, w)
  /\ mirror_getxattr "/d/f" "user.tag" 256 2 w = (- ERANGE, set_errno ERANGE w)
  /\ mirror_getxattr "/d/f" "user.tag" 256 8 world0 = (- ENODATA, set_errno ENODATA world0)
  /\ mirror_listxattr "/d/f" 512 0 world0 = (0, world0).
Proof.
  intros w w'.
  destruct (xattr_sizes_forwarded (K := memfs_libc)) as [Hget Hlist].
  assert (Hcall : sys_getxattr "/d/f" "user.tag" 256 8 w = (4, w'))
    by (vm_compute; reflexivity).
  assert (Hprobe : sys_getxattr "/d/f" "user.tag" 256 0 w = (4, w))
    by (vm_compute; reflexivity).
  assert (Hnames : sys_listxattr "/d/f" 512 0 w = (9, w)) by (vm_compute; reflexivity).
  assert (Hshort : sys_getxattr "/d/f" "user.tag" 256 2 w = (-1, set_errno ERANGE w))
    by (vm_compute; reflexivity).
  assert (Hnone : sys_getxattr "/d/f" "user.tag" 256 8 world0
                  = (-1, set_errno ENODATA world0)) by (vm_compute; reflexivity).
  assert (Hempty : sys_listxattr "/d/f" 512 0 world0 = (0, world0))
    by (vm_compute; reflexivity).
  assert (Hfits : forall n, 0 <= n <= 9 -> 0 <= n <= INT_MAX) by (unfold INT_MAX; lia).
  refine (conj Hcall (conj _ (conj _ (conj _ (conj _ (conj _ (conj _ _))))))).
  - exact (proj2 (proj2 (Hget _ _ _ _ w 4 w' Hcall)) (Hfits 4 ltac:(lia))).
  - vm_compute. reflexivity.
  - exact (proj2 (proj2 (Hget _ _ _ _ w 4 w Hprobe)) (Hfits 4 ltac:(lia))).
  - exact (proj2 (proj2 (Hlist _ _ _ w 9 w Hnames)) (Hfits 9 ltac:(lia))).
  - exact (proj1 (Hget _ _ _ _ w (-1) _ Hshort) eq_refl).
  - exact (proj1 (Hget _ _ _ _ world0 (-1) _ Hnone) eq_refl).
  - exact (proj2 (proj2 (Hlist _ _ _ world0 0 world0 Hempty)) (Hfits 0 ltac:(lia))).
Defined.

Lemma mirror_open_outcomes_witness :
  let fi := mk_fi O_RDONLY 5 in
  let stale := snd (mirror_getattr "/nope" 512 (snd (sys_close 0 world0))) in
  sys_open "/nope" (flags fi) None world0 = (-1, set_errno ENOENT world0)
  /\ -1 <= -1 <= INT_MAX
  /\ mirror_open "/nope" fi world0
     = ((- ENOENT, set_fh fi 18446744073709551615), set_errno ENOENT world0)
  /\ fst (sys_open "/d/f" (flags fi) None stale) = 0
  /\ errno stale = ENOENT
  /\ fst (mirror_open "/d/f" fi stale) = (0, set_fh fi 0).
Proof.
  intros fi stale.
  assert (Hfail : sys_open "/nope" (flags fi) None world0 = (-1, set_errno ENOENT world0))
    by reflexivity.
  assert (Hzero : sys_open "/d/f" (flags fi) None stale
                  = (0, snd (sys_open "/d/f" (flags fi) None stale)))
    by (vm_compute; reflexivity).
  assert (Hrange : forall z, -1 <= z <= 0 -> -1 <= z <= INT_MAX) by (unfold INT_MAX; lia).
  repeat apply conj.
  - exact Hfail.
  - lia.
  - unfold INT_MAX. lia.
  - destruct (mirror_open_outcomes "/nope" fi world0 (-1) _ Hfail (Hrange (-1) ltac:(lia)))
      as (Hneg & _).
    now apply Hneg.
  - vm_compute. reflexivity.
  - vm_compute. reflexivity.
  - destruct (mirror_open_outcomes "/d/f" fi stale 0 _ Hzero (Hrange 0 ltac:(lia)))
      as (_ & Hnull & _).
    now rewrite Hnull.
Defined.

Lemma failed_open_and_the_handle_slot_witness :
  let fi := mk_fi O_RDONLY 5 in
  fst (sys_opendir "/nope" world0) = NULL
  /\ snd (fst (mirror_opendir "/nope" fi world0)) = fi
  /\ fst (sys_creat "/nope/f" 420 world0) = -1
  /\ fh (snd (fst (mirror_create "/nope/f" 420 fi world0))) = 18446744073709551615.
Proof.
  intros fi.
  destruct (failed_open_and_the_handle_slot (K := memfs_libc) "/nope" 420 fi world0)
    as (Hdir & _ & _).
  destruct (failed_open_and_the_handle_slot (K := memfs_libc) "/nope/f" 420 fi world0)
    as (_ & _ & Hcreat).
  assert (Hnull : fst (sys_opendir "/nope" world0) = NULL) by reflexivity.
  assert (Hfail : fst (sys_creat "/nope/f" 420 world0) = -1) by (vm_compute; reflexivity).
  repeat apply conj.
  - exact Hnull.
  - exact (Hdir Hnull).
  - exact Hfail.
  - exact (proj1 (Hcreat Hfail)).
Defined.

Lemma file_session_uses_descriptor_witness :
  let fi := mk_fi O_RDONLY 0 in
  let fi' := set_fh fi (to_uint64 3) in
  let w := snd (sys_open "/d/f" O_RDONLY None world0) in
  let w' := snd (sys_pread 3 256 5 0 w) in
  is_int 3
  /\ sys_open "/d/f" (flags fi) None world0 = (3, w)
  /\ snd (fst (mirror_open "/d/f" fi world0)) = fi'
  /\ sys_pread 3 256 5 0 w = (5, w')
  /\ mirror_read "/d/f" 256 5 0 fi' w = ((5, fi'), w')
  /\ memfs_load w' 256 5 = "hello"%string
  /\ mirror_write "/d/f" "hey" 3 0 fi' w = ((- EBADF, fi'), set_errno EBADF w)
  /\ mirror_release "/d/f" fi' w = ((0, fi'), snd (sys_close 3 w)).
Proof.
  intros fi fi' w w'.
  assert (Hint : is_int 3) by (unfold is_int, INT_MIN, INT_MAX; lia).
  assert (Hopen : sys_open "/d/f" (flags fi) None world0 = (3, w))
    by (vm_compute; reflexivity).
  assert (Hread : sys_pread 3 256 5 0 w = (5, w')) by (vm_compute; reflexivity).
  assert (Hwrite : sys_pwrite 3 "hey" 3 0 w = (-1, set_errno EBADF w))
    by (vm_compute; reflexivity).
  destruct (file_session_uses_descriptor fi 3 Hint)
    as (Hstored & _ & _ & Hw & Hr & Hrelease).
  refine (conj Hint (conj Hopen (conj _ (conj Hread (conj _ (conj _ (conj _ _))))))).
  - exact (Hstored "/d/f"%string world0 w Hopen).
  - exact (Hr "/d/f"%string 256 5 0 w 5 w' Hread).
  - vm_compute. reflexivity.
  - exact (Hw "/d/f"%string "hey"%string 3 0 w (-1) _ Hwrite).
  - exact (Hrelease "/d/f"%string w).
Defined.

Lemma mirror_readdir_repeatable_witness :
  let opened := mirror_opendir "/d" (mk_fi O_RDONLY 0) world0 in
  let fi := snd (fst opened) in
  let w := snd opened in
  let es := [mk_dirent "." 1; mk_dirent ".." 4; mk_dirent "g" 3;
             mk_dirent "f" 2147483647]%string in
  let first := mirror_readdir 10 "/d" [] (bounded_filler 3) 0 fi w in
  memfs_dir_view w (fh fi) = Some (es, 0%nat)
  /\ (List.length es < 10)%nat
  /\ resumes_at es 0 0
  /\ resumes_at es 3 3
  /\ fst first = (Some (0, ["."; ".."; "g"]%string), fi)
  /\ fst (mirror_readdir 10 "/d" [] (bounded_filler 3) 3 fi (snd first))
     = (Some (0, ["f"]%string), fi).
Proof.
  intros opened fi w es first.
  assert (Hview : memfs_dir_view w (fh fi) = Some (es, 0%nat)) by (vm_compute; reflexivity).
  assert (Hfuel : (List.length es < 10)%nat) by (cbn; lia).
  assert (Hstart : resumes_at es 0 0) by (left; split; reflexivity).
  assert (Hcookie : resumes_at es 3 3) by (cookie_of_entry 2%nat).
  destruct (mirror_readdir_repeatable memfs_dir_view memfs_dir_stream_contract
              (list string) (list string) (bounded_filler 3) (bounded_filler 3)
              10 "/d" [] [] 0 3 0 3 fi w es 0 Hview Hfuel Hstart Hcookie)
    as (w1 & w2 & Hrun1 & Hrun2).
  refine (conj Hview (conj Hfuel (conj Hstart (conj Hcookie (conj _ _))))).
  - unfold first. rewrite Hrun1. reflexivity.
  - unfold first. rewrite Hrun1. cbn [snd]. rewrite Hrun2. reflexivity.
Defined.

Lemma mirror_readdir_past_end_witness :
  let opened := mirror_opendir "/d" (mk_fi O_RDONLY 0) world0 in
  let fi := snd (fst opened) in
  let w := snd opened in
  let es := [mk_dirent "." 1; mk_dirent ".." 4; mk_dirent "g" 3;
             mk_dirent "f" 2147483647]%string in
  memfs_dir_view w (fh fi) = Some (es, 0%nat)
  /\ (List.length es < 5)%nat
  /\ resumes_at es 2147483647 (List.length es)
  /\ fst (mirror_readdir 5 "/d" ["kept"%string] (bounded_filler 8) 2147483647 fi w)
     = (Some (0, ["kept"%string]), fi).
Proof.
  intros opened fi w es.
  assert (Hview : memfs_dir_view w (fh fi) = Some (es, 0%nat)) by (vm_compute; reflexivity).
  assert (Hfuel : (List.length es < 5)%nat) by (cbn; lia).
  assert (Hend : resumes_at es 2147483647 (List.length es)) by (cookie_of_entry 3%nat).
  destruct (mirror_readdir_past_end memfs_dir_view memfs_dir_stream_contract
              (list string) (bounded_filler 8) 5 "/d" ["kept"%string] 2147483647 fi w es 0
              Hview Hfuel Hend) as (w1 & Hrun).
  refine (conj Hview (conj Hfuel (conj Hend _))).
  now rewrite Hrun.
Defined.

Lemma directory_session_lists_directory_witness :
  let count : fuse_fill_dir_t nat := fun b _ _ _ => (0, S b) in
  let fi := mk_fi O_RDONLY 0 in
  let w1 := snd (sys_opendir "/d" world0) in
  sys_opendir "/d" world0 = (4096, w1)
  /\ 4096 <> NULL
  /\ memfs_dir_names world0 "/d" = Some ["."; ".."; "g"; "f"]%string
  /\ mirror_opendir "/d" fi world0 = ((0, set_fh fi 4096), w1)
  /\ fst (mirror_readdir 5 "/d" (O, []) (traced count) 0 (set_fh fi 4096) w1)
     = (Some (0, (4%nat, ["."; ".."; "g"; "f"]%string)), set_fh fi 4096).
Proof.
  intros count fi w1.
  assert (Hcall : sys_opendir "/d" world0 = (4096, w1)) by (vm_compute; reflexivity).
  assert (Hdir : 4096 <> NULL) by discriminate.
  destruct (directory_session_lists_directory memfs_dir_view memfs_dir_names
              memfs_opendir_contract memfs_dir_stream_contract nat count
              "/d" fi world0 4096 w1 Hcall Hdir ltac:(lia) ltac:(reflexivity))
    as (names & Hnames & Hopen & Hlist & _).
  assert (Hthe : names = ["."; ".."; "g"; "f"]%string).
  { assert (H : memfs_dir_names world0 "/d" = Some ["."; ".."; "g"; "f"]%string)
      by (vm_compute; reflexivity).
    rewrite H in Hnames. now injection Hnames. }
  subst names.
  refine (conj Hcall (conj Hdir (conj Hnames (conj Hopen _)))).
  destruct (Hlist 5%nat O ltac:(cbn; lia)) as (buf' & w2 & Hrun).
  rewrite Hrun. cbn [fst]. repeat f_equal.
  assert (Hbuf : fst (mirror_readdir 5 "/d" (O, []) (traced count) 0 (set_fh fi 4096) w1)
                   = (Some (0, (4%nat, ["."; ".."; "g"; "f"]%string)), set_fh fi 4096))
    by (vm_compute; reflexivity).
  rewrite Hrun in Hbuf. cbn [fst] in Hbuf. now injection Hbuf.
Defined.

Lemma mirror_readdir_needs_end_of_stream_witness :
  let collect : fuse_fill_dir_t (list string) := fun b name _ _ => (0, b ++ [name]) in
  let fi := mk_fi O_RDONLY 4096 in
  (forall w, fst (sys_readdir (Libc := endless_libc) (fh fi) w) <> None)
  /\ fst (fst (mirror_readdir (K := endless_libc) 1000 "/d" [] collect 0 fi world0)) = None.
Proof.
  intros collect fi.
  assert (Hendless : forall w, fst (sys_readdir (Libc := endless_libc) (fh fi) w) <> None)
    by (intros w; discriminate).
  split; [exact Hendless|].
  apply (mirror_readdir_needs_end_of_stream (K := endless_libc) (list string) collect fi
           Hendless).
  reflexivity.
Defined.

Lemma read_after_create_returns_zero_witness :
  let fi := mk_fi O_WRONLY 0 in
  let w' := snd (sys_creat "/d/f" 420 world0) in
  sys_creat "/d/f" 420 world0 = (3, w')
  /\ 3 <> -1
  /\ mirror_create "/d/f" 420 fi world0 = ((0, set_fh fi 3), w')
  /\ fst (mirror_read "/d/f" 256 5 0 (set_fh fi 3) w') = (0, set_fh fi 3).
Proof.
  intros fi w'.
  assert (Hcall : sys_creat "/d/f" 420 world0 = (3, w')) by (vm_compute; reflexivity).
  assert (Hne : 3 <> -1) by lia.
  destruct (read_after_create_returns_zero memfs_file_size memfs_fd_mode
              memfs_creat_contract memfs_pread_mode_contract
              "/d/f" 420 fi world0 3 w' Hcall Hne) as [Hcreate Hread].
  repeat apply conj; try assumption.
  apply (Hread "/d/f"%string 256 5 0).
Defined.
